(** * Fund dashboard: aggregation engine and drill-down selection

    A shallow embedding of the JavaScript of [src/utils/dataLoader.js]
    ([calculateTotalAUM], [groupDataByField], [aggregateByField]), of the
    derived data and the two selection handlers of [src/App.js], and of the
    click handler of the pie chart component, together with the properties
    the specification states about them.  The rest of the code follows:
    what the pie chart and the detail table compute from their data, the
    loading of the sheet ([loadExcelData], over the browser's [fetch] and
    the xlsx library taken as given), the effect that runs on mount and
    what the App component renders.

    The functions are ordinary JavaScript, so the embedding carries the
    parts of the language the code leans on: the primitive values a
    spreadsheet row can hold, truthiness ([x || 0], [!groups[key]]), the
    [+] operator (numeric addition or string concatenation), strict
    equality, property keys (every key is a string), property lookup
    through [Object.prototype] on the object literal that collects the
    groups, and the order in which [Object.entries] lists own keys. *)

From Stdlib Require Import ZArith NArith QArith Qround Qabs List String Ascii Bool.
From Stdlib Require Import Permutation DecimalString.
From Stdlib Require Import PrimFloat SpecFloat FloatOps FloatAxioms.
From Stdlib Require Import Lia.
Import ListNotations.

Set Implicit Arguments.
#[local] Close Scope Q_scope.
#[local] Open Scope string_scope.
#[local] Open Scope list_scope.

(** ** Numbers

    The Number type of JavaScript is IEEE-754 binary64.  The functions
    below use a number only through [+], truthiness, [===] and the
    conversion to a string, so the model is written over an interface with
    these operations.  Two instances follow: [Binary64], the doubles
    themselves, and [Exact], unbounded integers with a NaN.  [Exact] does
    not round where doubles do: it serves as sample data for properties
    that hold for every instance, and nothing about what the code
    computes with doubles is drawn from it. *)

Class JSNumber (num : Type) := {
  nzero : num;                        (* +0 *)
  n_one : num;                        (* 1, the number of [true] *)
  nnan : num;                         (* NaN, the number of [undefined] *)
  nadd : num -> num -> num;           (* Number::add *)
  neqb : num -> num -> bool;          (* Number::equal, used by [===] *)
  nfalsy : num -> bool;               (* ToBoolean is false: +0, -0, NaN *)
  nto_string : num -> string          (* Number::toString, radix 10 *)
}.

(** Decimal digits of a natural number and of an integer. *)
Definition N_to_string (n : N) : string :=
  NilZero.string_of_uint (N.to_uint n).

Definition Z_to_string (z : Z) : string :=
  NilZero.string_of_int (Z.to_int z).

Module Exact.

Inductive t := NaN | Int (z : Z).

Definition add (a b : t) : t :=
  match a, b with
  | Int x, Int y => Int (x + y)
  | _, _ => NaN
  end.

Definition eqb (a b : t) : bool :=
  match a, b with
  | Int x, Int y => Z.eqb x y
  | _, _ => false
  end.

Definition falsy (a : t) : bool :=
  match a with
  | NaN => true
  | Int z => Z.eqb z 0
  end.

Definition to_string (a : t) : string :=
  match a with
  | NaN => "NaN"
  | Int z => Z_to_string z
  end.

#[global] Instance number : JSNumber t := {|
  nzero := Int 0;
  n_one := Int 1;
  nnan := NaN;
  nadd := add;
  neqb := eqb;
  nfalsy := falsy;
  nto_string := to_string
|}.

End Exact.

Module Binary64.

(** Number::toString(x) for a finite, positive double [m * 2^e]: the
    shortest decimal [s * 10^(n-k)] (with k digits in s) that rounds
    back to x, the closest to x among those of this length. *)

#[local] Open Scope Q_scope.

Definition pow10 (p : Z) : Q := Qpower (10 # 1) p.
Definition pow2 (p : Z) : Q := Qpower (2 # 1) p.

Record interval := { lo : Q; hi : Q; closed : bool }.

(** The reals that round (to nearest, ties to even) to [m * 2^e]. *)
Definition rounding_interval (m : positive) (e : Z) : interval :=
  let x := inject_Z (Zpos m) * pow2 e in
  let below :=
    if (Pos.eqb m 4503599627370496 && Z.ltb (-1074)%Z e)%bool
    then pow2 (e - 2)%Z else pow2 (e - 1)%Z in
  {| lo := x - below; hi := x + pow2 (e - 1)%Z;
     closed := Z.even (Zpos m) |}.

Definition inside (i : interval) (v : Q) : bool :=
  if closed i
  then (Qle_bool (lo i) v && Qle_bool v (hi i))%bool
  else (negb (Qle_bool v (lo i)) && negb (Qle_bool (hi i) v))%bool.

(** The least n, searched upwards from [n], with [x < 10^n]. *)
Fixpoint magnitude (fuel : nat) (x : Q) (n : Z) : Z :=
  match fuel with
  | O => n
  | S fuel' =>
      if negb (Qle_bool (pow10 n) x) then n else magnitude fuel' x (n + 1)%Z
  end.

Definition Qfloor_div (x y : Q) : Z := Qfloor (x / y).

(** The candidates (s, n) with exactly k digits. *)
Definition candidates (i : interval) (x : Q) (n0 : Z) (k : Z)
  : list (Z * Z) :=
  flat_map
    (fun n =>
       let s0 := Qfloor_div x (pow10 (n - k)%Z) in
       filter
         (fun '(s, n) =>
            (Z.leb (10 ^ (k - 1))%Z s && Z.ltb s (10 ^ k)%Z
             && inside i (inject_Z s * pow10 (n - k)%Z))%bool)
         [(s0, n); (s0 + 1, n)%Z])
    [n0 - 1; n0; n0 + 1]%Z.

Definition distance (x : Q) (k : Z) (c : Z * Z) : Q :=
  Qabs (inject_Z (fst c) * pow10 (snd c - k)%Z - x).

Definition closer (x : Q) (k : Z) (a b : Z * Z) : Z * Z :=
  match Qcompare (distance x k b) (distance x k a) with
  | Lt => b
  | Eq => if Z.even (fst b) then b else a
  | Gt => a
  end.

Fixpoint shortest (fuel : nat) (i : interval) (x : Q) (n0 : Z) (k : Z)
  : Z * Z * Z :=
  match fuel with
  | O => (0, n0, k)%Z
  | S fuel' =>
      match candidates i x n0 k with
      | [] => shortest fuel' i x n0 (k + 1)%Z
      | c :: cs => let '(s, n) := fold_left (closer x k) cs c in (s, n, k)
      end
  end.

Definition zeros (n : Z) : string :=
  string_of_list_ascii (repeat "0"%char (Z.to_nat n)).

Definition layout (s n k : Z) : string :=
  let d := Z_to_string s in
  (if (Z.leb (-5)%Z n && Z.leb n 21%Z)%bool then
    if Z.leb k n then d ++ zeros (n - k)%Z
    else if Z.ltb 0%Z n then
      substring 0 (Z.to_nat n) d ++ "." ++
      substring (Z.to_nat n) (Z.to_nat (k - n)%Z) d
    else "0." ++ zeros (- n)%Z ++ d
  else
    let e := (n - 1)%Z in
    let sign := if Z.ltb e 0%Z then "-" else "+" in
    let mant :=
      if Z.eqb k 1%Z then d
      else substring 0 1 d ++ "." ++ substring 1 (Z.to_nat (k - 1)%Z) d in
    mant ++ "e" ++ sign ++ Z_to_string (Z.abs e))%string.

Definition finite_to_string (m : positive) (e : Z) : string :=
  let x := inject_Z (Zpos m) * pow2 e in
  let n0 := magnitude 640 x (-324)%Z in
  let '(s, n, k) := shortest 17 (rounding_interval m e) x n0 1%Z in
  layout s n k.

Definition to_string (x : float) : string :=
  match Prim2SF x with
  | S754_nan => "NaN"
  | S754_zero _ => "0"
  | S754_infinity false => "Infinity"
  | S754_infinity true => "-Infinity"
  | S754_finite false m e => finite_to_string m e
  | S754_finite true m e => String.append "-" (finite_to_string m e)
  end.

Definition falsy (x : float) : bool :=
  (PrimFloat.eqb x PrimFloat.zero || PrimFloat.is_nan x)%bool.

#[global] Instance number : JSNumber float := {|
  nzero := PrimFloat.zero;
  n_one := PrimFloat.one;
  nnan := PrimFloat.nan;
  nadd := PrimFloat.add;
  neqb := PrimFloat.eqb;
  nfalsy := falsy;
  nto_string := to_string
|}.

End Binary64.

(** ** Values

    The primitive values a row of [sheet_to_json] can hold; a missing cell
    is an absent property, which reads as [undefined]. *)

Section Language.

Context {num : Type} `{JSNumber num}.

Inductive value :=
| VUndefined
| VNull
| VBool (b : bool)
| VNum (n : num)
| VStr (s : string).

Definition ToBoolean (v : value) : bool :=
  match v with
  | VUndefined | VNull => false
  | VBool b => b
  | VNum n => negb (nfalsy n)
  | VStr s => negb (String.eqb s "")
  end.

Definition ToString (v : value) : string :=
  match v with
  | VUndefined => "undefined"
  | VNull => "null"
  | VBool true => "true"
  | VBool false => "false"
  | VNum n => nto_string n
  | VStr s => s
  end.

(** ToNumber, as [+] uses it: on a value that is not a string ([+]
    concatenates as soon as one operand is a string, so the parsing of a
    string as a number plays no part and is not modelled; the last case is
    never reached from [js_add]). *)
Definition ToNumber (v : value) : num :=
  match v with
  | VUndefined => nnan
  | VNull => nzero
  | VBool true => n_one
  | VBool false => nzero
  | VNum n => n
  | VStr _ => nnan
  end.

(** [a + b] *)
Definition js_add (a b : value) : value :=
  match a, b with
  | VStr _, _ | _, VStr _ => VStr (String.append (ToString a) (ToString b))
  | _, _ => VNum (nadd (ToNumber a) (ToNumber b))
  end.

(** [a || b] *)
Definition js_or (a b : value) : value :=
  if ToBoolean a then a else b.

(** [a === b] *)
Definition strict_eq (a b : value) : bool :=
  match a, b with
  | VUndefined, VUndefined => true
  | VNull, VNull => true
  | VBool x, VBool y => Bool.eqb x y
  | VNum x, VNum y => neqb x y
  | VStr x, VStr y => String.eqb x y
  | _, _ => false
  end.

(** Every property key is a string: [obj[v]] reads the key [ToString v]. *)
Definition ToPropertyKey (v : value) : string := ToString v.

(** ** Objects

    An ordinary object is its own properties in creation order.  A row of
    the sheet is such an object; [item[field]] is [undefined] when the
    row has no such column.  [get] reads own properties only: it is
    [item[field]] for every field that [Object.prototype] does not define
    (for a field named like a member of the prototype and absent from the
    row, the code would find that member).  The properties that depend on
    what [get] returns are stated for such fields; the code itself reads
    FundType, Fund, Asset, MV and Equity. *)

Definition object (A : Type) := list (string * A).

Fixpoint own_property {A : Type} (key : string) (o : object A) : option A :=
  match o with
  | [] => None
  | (k, a) :: o' => if String.eqb k key then Some a else own_property key o'
  end.

Definition item := object value.

Definition get (it : item) (field : string) : value :=
  match own_property field it with
  | Some v => v
  | None => VUndefined
  end.

(** The names every object literal inherits from [Object.prototype]:
    [({})[name]] is a function (or, for [__proto__], the prototype
    itself) although the object has no own property of that name. *)
Definition Object_prototype : list string :=
  [ "constructor"; "__defineGetter__"; "__defineSetter__"; "hasOwnProperty";
    "__lookupGetter__"; "__lookupSetter__"; "isPrototypeOf";
    "propertyIsEnumerable"; "toString"; "valueOf"; "__proto__";
    "toLocaleString" ].

Definition inherited (key : string) : bool :=
  existsb (String.eqb key) Object_prototype.

(** What [groups[key]] evaluates to. *)
Inductive lookup (A : Type) :=
| Own (a : A)            (* the array stored under the key *)
| Inherited              (* a member of Object.prototype *)
| Missing.               (* undefined *)
Arguments Inherited {A}.
Arguments Missing {A}.

Definition obj_get {A : Type} (o : object A) (key : string) : lookup A :=
  match own_property key o with
  | Some a => Own a
  | None => if inherited key then Inherited else Missing
  end.

(** Arrays and functions are objects, hence truthy. *)
Definition lookup_truthy {A : Type} (l : lookup A) : bool :=
  match l with
  | Own _ | Inherited => true
  | Missing => false
  end.

(** [o[key] = a]: an own property keeps its place, a new one goes last. *)
Fixpoint obj_set {A : Type} (o : object A) (key : string) (a : A)
  : object A :=
  match o with
  | [] => [(key, a)]
  | (k, b) :: o' =>
      if String.eqb k key then (k, a) :: o' else (k, b) :: obj_set o' key a
  end.

(** An array index is the canonical decimal form of an integer in
    0 .. 2^32 - 2. *)
Definition array_index (key : string) : option N :=
  match NilEmpty.uint_of_string key with
  | Some u =>
      let n := N.of_uint u in
      if (String.eqb (N_to_string n) key && N.leb n 4294967294)%bool
      then Some n else None
  | None => None
  end.

Fixpoint insert_index {A : Type} (e : N * A) (l : list (N * A))
  : list (N * A) :=
  match l with
  | [] => [e]
  | e' :: l' =>
      if N.leb (fst e) (fst e') then e :: l else e' :: insert_index e l'
  end.

Definition sort_index {A : Type} (l : list (N * A)) : list (N * A) :=
  fold_right insert_index [] l.

Definition index_entries {A : Type} (o : object A)
  : list (N * (string * A)) :=
  flat_map
    (fun e => match array_index (fst e) with
              | Some n => [(n, e)]
              | None => []
              end) o.

Definition is_array_index (key : string) : bool :=
  match array_index key with Some _ => true | None => false end.

Definition named_entries {A : Type} (o : object A) : object A :=
  filter (fun e => negb (is_array_index (fst e))) o.

(** [Object.entries(o)]: own keys that are array indices first, in
    ascending numeric order, then the other keys in creation order. *)
Definition Object_entries {A : Type} (o : object A) : list (string * A) :=
  map snd (sort_index (index_entries o)) ++ named_entries o.

(** ** Completions *)

Inductive error := TypeError.

Inductive completion (A : Type) :=
| Normal (a : A)
| Throw (e : error).
Arguments Throw {A}.

Definition bind {A B : Type} (c : completion A) (f : A -> completion B)
  : completion B :=
  match c with
  | Normal a => f a
  | Throw e => Throw e
  end.

(** ** dataLoader.js *)

(** [!data || !data.length]: [data] is absent ([None]: undefined or
    null) or an empty array. *)
Definition no_data {A : Type} (data : option (list A)) : bool :=
  match data with
  | None | Some [] => true
  | Some (_ :: _) => false
  end.

Definition elements {A : Type} (data : option (list A)) : list A :=
  match data with
  | None => []
  | Some l => l
  end.

(** [(sum, item) => sum + (item[field] || 0)] *)
Definition add_field (field : string) (sum : value) (it : item) : value :=
  js_add sum (js_or (get it field) (VNum nzero)).

Definition calculateTotalAUM (data : option (list item)) : value :=
  if no_data data then VNum nzero
  else fold_left (add_field "MV") (elements data) (VNum nzero).

(** The body of the reducer of [groupDataByField]. *)
Definition group_item (field : string) (groups : object (list item))
    (it : item) : completion (object (list item)) :=
  let key := ToPropertyKey (get it field) in
  let groups :=
    if negb (lookup_truthy (obj_get groups key))
    then obj_set groups key []
    else groups in
  match obj_get groups key with
  | Own items => Normal (obj_set groups key (items ++ [it]))
  | Inherited | Missing => Throw TypeError     (* [.push] is not a function *)
  end.

Definition groupDataByField (data : option (list item)) (field : string)
  : completion (object (list item)) :=
  if no_data data then Normal []
  else fold_left (fun groups it => bind groups (fun g => group_item field g it))
                 (elements data) (Normal []).

(** One row of [aggregateByField]: the object literal
    [{[groupField]: key, [valueField]: sum, count: items.length}], kept
    as its three components (at both call sites the three property names
    differ: FundType or Fund, MV and count).  The three components are
    the three properties of the object when the two field names differ
    from each other and from count; when names clash, a later property
    of the literal overwrites an earlier one, and the count, written
    last, is always kept.  The properties about keys and sums are stated
    for names that do not clash. *)
Record AggregateRow := {
  row_key : string;
  row_sum : value;
  row_count : nat
}.

Definition aggregate_entry (valueField : string)
    (entry : string * list item) : AggregateRow :=
  let '(key, items) := entry in
  {| row_key := key;
     row_sum := fold_left (add_field valueField) items (VNum nzero);
     row_count := List.length items |}.

Definition aggregateByField (data : option (list item))
    (groupField valueField : string) : completion (list AggregateRow) :=
  if no_data data then Normal []
  else bind (groupDataByField data groupField)
            (fun groups =>
               Normal (map (aggregate_entry valueField)
                           (Object_entries groups))).

End Language.

Arguments value num : clear implicits.
Arguments item num : clear implicits.
Arguments AggregateRow num : clear implicits.
Arguments Inherited {A}.
Arguments Missing {A}.
Arguments Throw {A}.

(** ** PieChart: the click handler

    [handleClick] finds the clicked segment and its label (a key of the
    aggregated rows, hence a string) and toggles: the label of the segment
    that is already selected deselects. *)

Definition same_item (clickedItem : string) (selectedItem : option string)
  : bool :=
  match selectedItem with
  | Some s => String.eqb clickedItem s
  | None => false
  end.

Definition handleClick {S : Type} (selectedItem : option string)
    (onItemSelect : option string -> S) (clickedItem : string) : S :=
  if same_item clickedItem selectedItem
  then onItemSelect None
  else onItemSelect (Some clickedItem).

(** ** App.js *)

Module App.

(** The two selection cells of the component state; [None] is [null]. *)
Record Selection := {
  selectedFundType : option string;
  selectedSubFund : option string
}.

Definition initial : Selection :=
  {| selectedFundType := None; selectedSubFund := None |}.

Definition handleFundTypeSelect (s : Selection) (fundType : option string)
  : Selection :=
  {| selectedFundType := fundType; selectedSubFund := None |}.

Definition handleSubFundSelect (s : Selection) (subFund : option string)
  : Selection :=
  {| selectedFundType := selectedFundType s; selectedSubFund := subFund |}.

(** A click on the segment [x] of the main chart, and on the segment [y]
    of the sub-fund chart: the chart's handler wired to the App's. *)
Definition selectFundType (x : string) (s : Selection) : Selection :=
  handleClick (selectedFundType s) (handleFundTypeSelect s) x.

Definition selectSubFund (y : string) (s : Selection) : Selection :=
  handleClick (selectedSubFund s) (handleSubFundSelect s) y.

(** The sub-fund chart is rendered only while a fund type is selected.
    [step] lets a click carry any label, which is more than the charts
    offer: it bounds the reachable states from above and serves for
    invariants; [Dashboard.click] below is the click on a rendered
    chart. *)
Inductive step : Selection -> Selection -> Prop :=
| step_fund_type (x : string) (s : Selection) :
    step s (selectFundType x s)
| step_sub_fund (y : string) (s : Selection) :
    selectedFundType s <> None -> step s (selectSubFund y s).

Inductive reachable : Selection -> Prop :=
| reachable_initial : reachable initial
| reachable_step (s s' : Selection) :
    reachable s -> step s s' -> reachable s'.

(** Truthiness of a selection cell: [null] and the empty string are
    falsy. *)
Definition selected (cell : option string) : bool :=
  match cell with
  | Some s => negb (String.eqb s "")
  | None => false
  end.

Section Derived.

Context {num : Type} `{JSNumber num}.

(** [item => item[field] === selection] *)
Definition matches (field : string) (cell : option string)
    (it : item num) : bool :=
  match cell with
  | Some s => strict_eq (get it field) (VStr s)
  | None => strict_eq (get it field) VNull
  end.

Record Derived := {
  totalAUM : value num;
  fundTypeData : completion (list (AggregateRow num));
  subFundData : completion (list (AggregateRow num));
  fundDetailsData : list (item num)
}.

(** The derived data of one render. *)
Definition derive (fundData : list (item num)) (s : Selection)
  : Derived :=
  {| totalAUM := calculateTotalAUM (Some fundData);
     fundTypeData := aggregateByField (Some fundData) "FundType" "MV";
     subFundData :=
       if selected (selectedFundType s)
       then aggregateByField
              (Some (filter (matches "FundType" (selectedFundType s))
                            fundData))
              "Fund" "MV"
       else Normal [];
     fundDetailsData :=
       if selected (selectedSubFund s)
       then filter (matches "Fund" (selectedSubFund s)) fundData
       else [] |}.

(** The total in the title of the sub-fund chart:
    [subFundData.reduce((sum, item) => sum + item.MV, 0)]. *)
Definition rows_total (rows : list (AggregateRow num)) : value num :=
  fold_left (fun sum row => js_add sum (row_sum row)) rows (VNum nzero).

End Derived.

End App.

(** ** Numbers with a fixed number of decimals

    [Number.prototype.toFixed(f)]: the decimal with f digits after the
    point that is nearest to the number, the larger one on a tie; a number
    of 10^21 and more is printed as by [toString]. *)

Class JSNumberFormat (num : Type) := {
  nto_fixed : num -> nat -> string
}.

Module Fixed.

Definition zeros (n : nat) : string :=
  string_of_list_ascii (repeat "0"%char n).

(** The digits of [n], the last [f] of them after the point. *)
Definition layout (n : Z) (f : nat) : string :=
  let m := Z_to_string n in
  match f with
  | O => m
  | S _ =>
      let m := if Nat.leb (String.length m) f
               then String.append (zeros (f + 1 - String.length m)) m
               else m in
      let k := String.length m in
      String.append (substring 0 (k - f) m)
                    (String.append "." (substring (k - f) f m))
  end.

Definition exact (a : Exact.t) (f : nat) : string :=
  match a with
  | Exact.NaN => "NaN"
  | Exact.Int z =>
      let sign := if Z.ltb z 0 then "-" else "" in
      if Z.leb (10 ^ 21) (Z.abs z)
      then String.append sign (Z_to_string (Z.abs z))
      else String.append sign (layout (Z.abs z * 10 ^ Z.of_nat f) f)
  end.

(** The integer nearest to [q], the larger one on a tie. *)
Definition nearest (q : Q) : Z := Qfloor (Qplus q (1 # 2)).

Definition finite (m : positive) (e : Z) (f : nat) : string :=
  let x := Qmult (inject_Z (Zpos m)) (Binary64.pow2 e) in
  if Qle_bool (Binary64.pow10 21) x
  then Binary64.finite_to_string m e
  else layout (nearest (Qmult x (Binary64.pow10 (Z.of_nat f)))) f.

Definition binary64 (x : float) (f : nat) : string :=
  match Prim2SF x with
  | S754_nan => "NaN"
  | S754_infinity false => "Infinity"
  | S754_infinity true => "-Infinity"
  | S754_zero _ => layout 0 f
  | S754_finite false m e => finite m e f
  | S754_finite true m e => String.append "-" (finite m e f)
  end.

#[global] Instance exact_format : JSNumberFormat Exact.t := {|
  nto_fixed := exact
|}.

#[global] Instance binary64_format : JSNumberFormat float := {|
  nto_fixed := binary64
|}.

End Fixed.

(** ** The components *)

Section Components.

Context {num : Type} `{JSNumber num} `{JSNumberFormat num}.

(** [v.toFixed(f)]: only a number has the method; on [undefined] and
    [null] the property access fails, on text and booleans the call. *)
Definition toFixed (v : value num) (fractionDigits : nat)
  : completion string :=
  match v with
  | VNum n => Normal (nto_fixed n fractionDigits)
  | _ => Throw TypeError
  end.

Fixpoint map_completion {A B : Type} (f : A -> completion B) (l : list A)
  : completion (list B) :=
  match l with
  | [] => Normal []
  | a :: l' =>
      bind (f a) (fun b =>
      bind (map_completion f l') (fun bs => Normal (b :: bs)))
  end.

End Components.

(** *** PieChart

    The rows a chart receives are aggregated rows; at both uses the label
    field is the field they were grouped by and the value field is MV, so
    [item[labelField]] is the key of the row and [item[valueField]] its
    sum.  The tooltip and data label callbacks (percentages, computed by
    the chart library on hovering and drawing) are left out. *)

Module PieChart.

Definition CHART_COLORS : list string :=
  [ "#3b82f6"; "#10b981"; "#8b5cf6"; "#f97316"; "#ef4444"; "#ec4899";
    "#14b8a6"; "#6366f1"; "#f59e0b" ].

Section Chart.

Context {num : Type} `{JSNumber num}.

Definition labels (data : list (AggregateRow num)) : list string :=
  map (@row_key num) data.

Definition values (data : list (AggregateRow num)) : list (value num) :=
  map (@row_sum num) data.

(** [data.map((_, index) => CHART_COLORS[(index + colorOffset) %
    CHART_COLORS.length])]; an index outside the palette would read
    [undefined], [None] here. *)
Definition colors (data : list (AggregateRow num)) (colorOffset : nat)
  : list (option string) :=
  map (fun index =>
         nth_error CHART_COLORS
                   ((index + colorOffset) mod List.length CHART_COLORS))
      (seq 0 (List.length data)).

(** [labels.map(label => label === selectedItem ? 20 : 0)] *)
Definition offset (data : list (AggregateRow num))
    (selectedItem : option string) : list nat :=
  map (fun label => if same_item label selectedItem then 20 else 0)
      (labels data).

Record chartData := {
  chart_labels : list string;
  chart_values : list (value num);
  backgroundColor : list (option string);
  chart_offset : list nat
}.

Inductive rendered :=
| LoadingData                                  (* "Loading data..." *)
| Chart (title : option string) (d : chartData).

(** The title is shown when it is truthy. *)
Definition shown_title (title : string) : option string :=
  if String.eqb title "" then None else Some title.

Definition render (data : option (list (AggregateRow num))) (title : string)
    (selectedItem : option string) (colorOffset : nat) : rendered :=
  if no_data data then LoadingData
  else Chart (shown_title title)
             {| chart_labels := labels (elements data);
                chart_values := values (elements data);
                backgroundColor := colors (elements data) colorOffset;
                chart_offset := offset (elements data) selectedItem |}.

End Chart.

Arguments chartData num : clear implicits.
Arguments rendered num : clear implicits.

End PieChart.

(** *** FundDetails *)

Module FundDetails.

Section Details.

Context {num : Type} `{JSNumber num} `{JSNumberFormat num}.

Record line := {
  asset : value num;            (* [{item.Asset}] *)
  mv : string;                  (* [${item.MV.toFixed(2)}MM] *)
  equity : string               (* [${item.Equity.toFixed(2)}MM] *)
}.

Record table := {
  title : string;
  lines : list line;
  total_mv : string;
  total_equity : string
}.

Definition totalMV (data : list (item num)) : value num :=
  fold_left (add_field "MV") data (VNum nzero).

Definition totalEquity (data : list (item num)) : value num :=
  fold_left (add_field "Equity") data (VNum nzero).

Definition money (amount : string) : string :=
  String.append "$" (String.append amount "MM").

Definition render_line (it : item num) : completion line :=
  bind (toFixed (get it "MV") 2) (fun m =>
  bind (toFixed (get it "Equity") 2) (fun e =>
  Normal {| asset := get it "Asset"; mv := money m; equity := money e |})).

(** [None] is the [null] returned when there is nothing to show. *)
Definition render (data : option (list (item num)))
    (fundName : option string) : completion (option table) :=
  if (no_data data || negb (App.selected fundName))%bool then Normal None
  else
    let rows := elements data in
    bind (toFixed (totalMV rows) 1) (fun nav =>
    bind (map_completion render_line rows) (fun ls =>
    bind (toFixed (totalMV rows) 2) (fun tm =>
    bind (toFixed (totalEquity rows) 2) (fun te =>
    Normal
      (Some {| title :=
                 String.append "Fund "
                   (String.append (match fundName with
                                   | Some name => name
                                   | None => ""
                                   end)
                      (String.append " ($" (String.append nav "MM NAV)")));
               lines := ls;
               total_mv := money tm;
               total_equity := money te |}))))).

End Details.

Arguments line num : clear implicits.
Arguments table num : clear implicits.

End FundDetails.

(** *** Loading the sheet

    [fetch], [read] and [sheet_to_json] are given by the browser and the
    xlsx library; a promise they reject and an error they throw are an
    [Error] with a message.  Writing to the console is left out. *)

Module Loader.

Inductive outcome (A : Type) :=
| Resolved (a : A)
| Rejected (message : string).
Arguments Rejected {A}.

Definition and_then {A B : Type} (o : outcome A) (f : A -> outcome B)
  : outcome B :=
  match o with
  | Resolved a => f a
  | Rejected message => Rejected message
  end.

Section Load.

Context {num : Type} `{JSNumber num}.
Variables buffer sheet : Type.

Record response := {
  ok : bool;
  status : num;
  statusText : string;
  arrayBuffer : outcome buffer
}.

(** [Sheets name] is the value of [workbook.Sheets[name]]. *)
Record workbook := {
  SheetNames : list string;
  Sheets : string -> sheet
}.

Record environment := {
  fetch : string -> outcome response;
  read : buffer -> outcome workbook;
  sheet_to_json : sheet -> outcome (list (item num))
}.

(** The body of the [try] block. *)
Definition attempt (env : environment) (filePath : string)
  : outcome (list (item num)) :=
  and_then (fetch env filePath) (fun response =>
  if negb (ok response)
  then Rejected
         (String.append "HTTP error "
            (String.append (nto_string (status response))
               (String.append ": " (statusText response))))
  else
    and_then (arrayBuffer response) (fun arrayBuffer =>
    and_then (read env arrayBuffer) (fun workbook =>
    match SheetNames workbook with
    | firstSheetName :: _ =>
        if String.eqb firstSheetName ""
        then Rejected "Excel file contains no sheets"
        else sheet_to_json env (Sheets workbook firstSheetName)
    | [] => Rejected "Excel file contains no sheets"
    end))).

Definition loadExcelData (env : environment) (filePath : string)
  : outcome (list (item num)) :=
  match attempt env filePath with
  | Resolved data => Resolved data
  | Rejected message =>
      Rejected (String.append "Failed to load Excel data: " message)
  end.

End Load.

Arguments response num buffer : clear implicits.
Arguments workbook sheet : clear implicits.
Arguments environment num buffer sheet : clear implicits.

End Loader.

(** *** The App component: state, effect and what it renders *)

Module Dashboard.

Section Component.

Context {num : Type} `{JSNumber num} `{JSNumberFormat num}.

Record State := {
  fundData : list (item num);
  loading : bool;
  error : option string;
  selection : App.Selection
}.

Definition initial : State :=
  {| fundData := []; loading := true; error := None;
     selection := App.initial |}.

(** The state once the effect that runs on mount has finished. *)
Definition fetchData {buffer sheet : Type}
    (env : Loader.environment num buffer sheet) (st : State) : State :=
  match Loader.loadExcelData env "/data/DummyDataSet.xlsx" with
  | Loader.Resolved data =>
      {| fundData := data; loading := false; error := error st;
         selection := selection st |}
  | Loader.Rejected message =>
      {| fundData := fundData st; loading := false;
         error := Some (String.append "Failed to load data: " message);
         selection := selection st |}
  end.

(** A click on a segment of the main chart. *)
Definition clickFundType (x : string) (st : State) : State :=
  {| fundData := fundData st; loading := loading st; error := error st;
     selection := App.selectFundType x (selection st) |}.

Inductive screen :=
| LoadingScreen
| ErrorScreen (message : string)
| DashboardScreen (main : PieChart.rendered num)
                  (sub : option (PieChart.rendered num))
                  (details : option (option (FundDetails.table num))).

Definition chosen (cell : option string) : string :=
  match cell with
  | Some s => s
  | None => ""
  end.

(** One render of the component and of the components it shows: the
    derived data are computed first, then the screen is chosen. *)
Definition render (st : State) : completion screen :=
  let d := App.derive (fundData st) (selection st) in
  let s := selection st in
  bind (App.fundTypeData d) (fun fundTypeData =>
  bind (App.subFundData d) (fun subFundData =>
  if loading st then Normal LoadingScreen
  else if App.selected (error st) then Normal (ErrorScreen (chosen (error st)))
  else
    bind (toFixed (App.totalAUM d) 1) (fun total =>
    bind (if App.selected (App.selectedFundType s)
          then
            bind (toFixed (App.rows_total subFundData) 1) (fun nav =>
            Normal
              (Some (PieChart.render (Some subFundData)
                       (String.append "$"
                          (String.append nav
                             (String.append "MM "
                                (String.append
                                   (chosen (App.selectedFundType s))
                                   " NAV"))))
                       (App.selectedSubFund s) 3)))
          else Normal None) (fun sub =>
    bind (if App.selected (App.selectedSubFund s)
          then
            bind (FundDetails.render (Some (App.fundDetailsData d))
                                     (App.selectedSubFund s))
                 (fun details => Normal (Some details))
          else Normal None) (fun details =>
    Normal
      (DashboardScreen
         (PieChart.render (Some fundTypeData)
            (String.append "Total AUM: $" (String.append total "MM"))
            (App.selectedFundType s) 0)
         sub details)))))).

(** A click on a segment of the sub-fund chart. *)
Definition clickSubFund (y : string) (st : State) : State :=
  {| fundData := fundData st; loading := loading st; error := error st;
     selection := App.selectSubFund y (selection st) |}.

(** A click reaches a handler only on a segment of a chart that is
    rendered, and delivers the label of that segment. *)
Inductive click : State -> State -> Prop :=
| click_main (st : State) (x : string) (title : option string)
    (d : PieChart.chartData num) (sub : option (PieChart.rendered num))
    (details : option (option (FundDetails.table num))) :
    render st =
      Normal (DashboardScreen (PieChart.Chart title d) sub details) ->
    In x (PieChart.chart_labels d) ->
    click st (clickFundType x st)
| click_sub (st : State) (y : string) (main : PieChart.rendered num)
    (title : option string) (d : PieChart.chartData num)
    (details : option (option (FundDetails.table num))) :
    render st =
      Normal (DashboardScreen main (Some (PieChart.Chart title d)) details) ->
    In y (PieChart.chart_labels d) ->
    click st (clickSubFund y st).

Inductive reachable (start : State) : State -> Prop :=
| reachable_start : reachable start start
| reachable_click (st st' : State) :
    reachable start st -> click st st' -> reachable start st'.

End Component.

Arguments State num : clear implicits.
Arguments screen num : clear implicits.

End Dashboard.

(** ** Doubles that are integers *)

Module Integral.

(** The mantissa [p] shifted left by [k] bits. *)
Definition shl (k : nat) (p : positive) : positive := Nat.iter k xO p.

(** The integer [z] rounded to binary64. *)
Definition nrm (z : Z) : spec_float :=
  binary_normalize FloatOps.prec FloatOps.emax z 0%Z false.

(** The double of an integer (exact below 2^53). *)
Definition of_Z (z : Z) : float := SF2Prim (nrm z).

(** The integer part of a finite double. *)
Definition to_Z (x : float) : Z :=
  match Prim2SF x with
  | S754_finite false m e => Z.shiftl (Zpos m) e
  | S754_finite true m e => Z.opp (Z.shiftl (Zpos m) e)
  | _ => 0%Z
  end.

End Integral.

(** ** Notions used to state the properties *)

Section Notions.

Context {num : Type} `{JSNumber num}.

(** The group key of a row. *)
Definition key_of (field : string) (it : item num) : string :=
  ToPropertyKey (get it field).

Definition keys_of (field : string) (data : list (item num)) : list string :=
  map (key_of field) data.

(** The keys of a sequence in the order in which each occurs first. *)
Fixpoint first_occurrences (keys : list string) : list string :=
  match keys with
  | [] => []
  | k :: keys' =>
      k :: filter (fun k' => negb (String.eqb k' k)) (first_occurrences keys')
  end.

(** The order of [Object.entries] on keys created in the order [keys]. *)
Definition index_keys (keys : list string) : list (N * string) :=
  flat_map
    (fun k => match array_index k with
              | Some n => [(n, k)]
              | None => []
              end) keys.

Definition entries_order (keys : list string) : list string :=
  map snd (sort_index (index_keys keys))
  ++ filter (fun k => negb (is_array_index k)) keys.

(** One step of the reducer of [groupDataByField] when it does not
    throw: the row joins the group of its key, a new key opens a group. *)
Definition push_group (key : string) (it : item num)
    (groups : object (list (item num))) : object (list (item num)) :=
  match own_property key groups with
  | Some items => obj_set groups key (items ++ [it])
  | None => groups ++ [(key, [it])]
  end.

Definition grouped (field : string) (data : list (item num))
    (groups : object (list (item num))) : object (list (item num)) :=
  fold_left (fun g it => push_group (key_of field it) it g) data groups.

(** A key that [Object.prototype] does not define. *)
Definition plain_key (key : string) : Prop := inherited key = false.

(** What a value adds to a sum [sum + (v || 0)] of numbers. *)
Definition amount (field : string) (it : item num) : num :=
  ToNumber (js_or (get it field) (VNum nzero)).

(** A value that is a number, or falsy (missing, null, false, the empty
    string). *)
Definition number_or_falsy (v : value num) : Prop :=
  match v with
  | VNum _ => True
  | _ => ToBoolean v = false
  end.

(** A value that is not a non-empty string. *)
Definition no_text (v : value num) : Prop :=
  match v with
  | VStr s => s = ""
  | _ => True
  end.

(** The left-to-right sum of a list of numbers. *)
Definition nsum (l : list num) : num := fold_left nadd l nzero.

(** The sum as the specification words it: a number counts as itself,
    anything else (missing, not a number) as 0. *)
Definition spec_contribution (v : value num) : num :=
  match v with
  | VNum n => n
  | _ => nzero
  end.

Definition spec_sumField (records : list (item num)) (valueField : string)
  : value num :=
  VNum (nsum (map (fun it => spec_contribution (get it valueField)) records)).

(** What the code adds for a number or a falsy value. *)
Definition contribution (v : value num) : num :=
  match v with
  | VNum n => if nfalsy n then nzero else n
  | _ => nzero
  end.

Definition total_count (rows : list (AggregateRow num)) : nat :=
  list_sum (map (@row_count num) rows).

(** A cell that holds text. *)
Definition is_text (v : value num) : Prop := exists s, v = VStr s.

(** Field names for which the three components of an aggregated row are
    the three properties of the object the code builds, and [get] is the
    property access of the code: no name is inherited from
    [Object.prototype], and the group field, the value field and count
    differ. *)
Definition row_fields (groupField valueField : string) : Prop :=
  plain_key groupField /\ plain_key valueField /\
  groupField <> valueField /\ groupField <> "count" /\
  valueField <> "count".

(** The sum of a list of integers. *)
Definition zsum (zs : list Z) : Z := fold_right Z.add 0%Z zs.

(** No addition of [xs.reduce((sum, x) => sum + x, acc)] is rounded,
    where the numbers are the images by [rho] of the integers [acc] and
    [zs]: each addition gives the image of the sum of the integers. *)
Fixpoint adds_exactly (rho : Z -> num) (acc : Z) (zs : list Z) : Prop :=
  match zs with
  | [] => True
  | z :: zs' =>
      nadd (rho acc) (rho z) = rho (acc + z)%Z /\
      adds_exactly rho (acc + z)%Z zs'
  end.

(** A cell that holds a number. *)
Definition is_number (v : value num) : Prop :=
  match v with
  | VNum _ => True
  | _ => False
  end.

(** A row whose market value and equity are numbers. *)
Definition numeric_row (it : item num) : Prop :=
  is_number (get it "MV") /\ is_number (get it "Equity").

End Notions.

Section ComponentNotions.

Context {num : Type} `{JSNumber num} `{JSNumberFormat num}.

(** The line of the detail table for a row whose amounts are numbers. *)
Definition detail_line (it : item num) : FundDetails.line num :=
  {| FundDetails.asset := get it "Asset";
     FundDetails.mv :=
       FundDetails.money (nto_fixed (spec_contribution (get it "MV")) 2);
     FundDetails.equity :=
       FundDetails.money (nto_fixed (spec_contribution (get it "Equity")) 2) |}.

(** What the selection can hold of the rows: a fund type that is the key
    of a row, and a fund only together with a fund type, the fund being
    the key of a row of that type. *)
Definition names_rows (fundData : list (item num)) (s : App.Selection)
  : Prop :=
  (forall t, App.selectedFundType s = Some t ->
             In t (keys_of "FundType" fundData)) /\
  (forall f, App.selectedSubFund s = Some f ->
             exists t, App.selectedFundType s = Some t /\
                       In f (keys_of "Fund"
                               (filter (App.matches "FundType" (Some t))
                                       fundData))).

End ComponentNotions.

(** ** Sample data *)

Section Samples.

Context {num : Type} `{JSNumber num}.

Definition fund_row (fundType fund asset : string) (mv equity : num)
  : item num :=
  [ ("FundType", VStr fundType); ("Fund", VStr fund); ("Asset", VStr asset);
    ("MV", VNum mv); ("Equity", VNum equity) ].

End Samples.

(** The example scenario of the specification. *)
Definition sample_records : list (item Exact.t) :=
  [ fund_row "Equity" "A" "Stock1" (Exact.Int 10) (Exact.Int 8);
    fund_row "Equity" "B" "Stock2" (Exact.Int 5) (Exact.Int 3);
    fund_row "Fixed Income" "C" "Bond1" (Exact.Int 20) (Exact.Int 0) ].

(** A fund whose name is a number, listed after one whose name is not. *)
Definition numbered_funds : list (item Exact.t) :=
  [ fund_row "Target Date" "Retirement" "Stock1" (Exact.Int 5) (Exact.Int 4);
    fund_row "Target Date" "2030" "Stock2" (Exact.Int 7) (Exact.Int 6) ].

(** A market value cell that holds text. *)
Definition text_cell : list (item Exact.t) :=
  [ fund_row "Equity" "A" "Stock1" (Exact.Int 10) (Exact.Int 8);
    [ ("FundType", VStr "Equity"); ("Fund", VStr "A"); ("Asset", VStr "Stock2");
      ("MV", VStr "n/a"); ("Equity", VNum (Exact.Int 3)) ] ].

(** A fund type named like a member of [Object.prototype]. *)
Definition inherited_name : list (item Exact.t) :=
  [ fund_row "Equity" "A" "Stock1" (Exact.Int 10) (Exact.Int 8);
    fund_row "constructor" "B" "Stock2" (Exact.Int 5) (Exact.Int 3) ].


(** The fund type 1 as a number in one row and as text in another. *)
Definition number_and_text : list (item Exact.t) :=
  [ [ ("FundType", VNum (Exact.Int 1)); ("Fund", VStr "A");
      ("MV", VNum (Exact.Int 10)) ];
    [ ("FundType", VStr "1"); ("Fund", VStr "B");
      ("MV", VNum (Exact.Int 5)) ] ].

(** A row without fund type, and one whose fund type is the text
    undefined. *)
Definition missing_and_text : list (item Exact.t) :=
  [ [ ("Fund", VStr "A"); ("MV", VNum (Exact.Int 10)) ];
    [ ("FundType", VStr "undefined"); ("Fund", VStr "B");
      ("MV", VNum (Exact.Int 5)) ] ].

(** A row whose market value cell is empty. *)
Definition missing_amount : list (item Exact.t) :=
  [ fund_row "Equity" "A" "Stock1" (Exact.Int 10) (Exact.Int 8);
    [ ("FundType", VStr "Equity"); ("Fund", VStr "A"); ("Asset", VStr "Stock2");
      ("Equity", VNum (Exact.Int 3)) ] ].

(** The example scenario of the specification, as doubles. *)
Definition double_records : list (item float) :=
  [ fund_row "Equity" "A" "Stock1" (Integral.of_Z 10) (Integral.of_Z 8);
    fund_row "Equity" "B" "Stock2" (Integral.of_Z 5) (Integral.of_Z 3);
    fund_row "Fixed Income" "C" "Bond1" (Integral.of_Z 20) (Integral.of_Z 0) ].

(** The market value of a row of doubles, as an integer. *)
Definition units (it : item float) : Z := Integral.to_Z (amount "MV" it).

(** Market values 0.1, 0.2 and 0.4 (in millions), as doubles. *)
Definition rounding_sample : list (item float) :=
  [ fund_row "Equity" "A" "Stock1" 0x1.999999999999ap-4%float 0%float;
    fund_row "Fixed Income" "C" "Bond1" 0x1.999999999999ap-3%float 0%float;
    fund_row "Equity" "B" "Stock2" 0x1.999999999999ap-2%float 0%float ].

(** * Properties *)

(** ** Numbers as strings *)

Example Binary64_to_string_examples :
  map Binary64.to_string
      [ 1; 0x1.999999999999ap-4; 0x1.3333333333334p-2; 0x1.8p+0; -0x1.4p+1;
        0x1p+70; 0x1.ad7f29abcaf48p-24; 0x1p-1074; -0 ]%float =
  [ "1"; "0.1"; "0.30000000000000004"; "1.5"; "-2.5";
    "1.1805916207174113e+21"; "1e-7"; "5e-324"; "0" ].
Proof. vm_compute. reflexivity. Qed.

Example Exact_to_string_examples :
  map Exact.to_string [Exact.Int 0; Exact.Int 2030; Exact.Int (-12); Exact.NaN] =
  [ "0"; "2030"; "-12"; "NaN" ].
Proof. reflexivity. Qed.

(** ** The example scenario of the specification *)

Example scenario_top_level :
  App.fundTypeData (App.derive sample_records App.initial) =
  Normal [ {| row_key := "Equity"; row_sum := VNum (Exact.Int 15);
              row_count := 2 |};
           {| row_key := "Fixed Income"; row_sum := VNum (Exact.Int 20);
              row_count := 1 |} ] /\
  App.totalAUM (App.derive sample_records App.initial) = VNum (Exact.Int 35).
Proof. split; reflexivity. Qed.

Example scenario_second_level :
  App.subFundData
    (App.derive sample_records (App.selectFundType "Equity" App.initial)) =
  Normal [ {| row_key := "A"; row_sum := VNum (Exact.Int 10); row_count := 1 |};
           {| row_key := "B"; row_sum := VNum (Exact.Int 5); row_count := 1 |} ].
Proof. reflexivity. Qed.

Example scenario_detail_rows :
  App.fundDetailsData
    (App.derive sample_records
       (App.selectSubFund "A" (App.selectFundType "Equity" App.initial))) =
  [ fund_row "Equity" "A" "Stock1" (Exact.Int 10) (Exact.Int 8) ].
Proof. reflexivity. Qed.

(** ** Objects *)

Section ObjectFacts.

Context {A : Type}.
Implicit Types (o : object A) (k : string).

Lemma own_property_app o o' k :
  own_property k (o ++ o') =
  match own_property k o with
  | Some a => Some a
  | None => own_property k o'
  end.
Proof.
  induction o as [|[k' b] o IH]; simpl; [reflexivity|].
  destruct (String.eqb k' k); [reflexivity|apply IH].
Qed.

Lemma own_property_In o k a : own_property k o = Some a -> In (k, a) o.
Proof.
  induction o as [|[k' b] o IH]; simpl; [discriminate|].
  destruct (String.eqb_spec k' k) as [->|_].
  - intros [= ->]. now left.
  - intros Hk. right. now apply IH.
Qed.

Lemma own_property_None o k :
  own_property k o = None <-> ~ In k (map fst o).
Proof.
  induction o as [|[k' b] o IH]; simpl.
  - split; [intros _ []|reflexivity].
  - destruct (String.eqb_spec k' k) as [->|Hne].
    + split; [discriminate|]. intros Hn. exfalso. apply Hn. now left.
    + rewrite IH. split.
      * intros Hn [<-|Hin]; [now apply Hne|now apply Hn].
      * intros Hn Hin. apply Hn. now right.
Qed.

Lemma obj_set_new o k a :
  own_property k o = None -> obj_set o k a = o ++ [(k, a)].
Proof.
  induction o as [|[k' b] o IH]; simpl; [reflexivity|].
  destruct (String.eqb k' k); [discriminate|].
  intros Hk. now rewrite IH.
Qed.

Lemma obj_set_keys o k a b :
  own_property k o = Some b -> map fst (obj_set o k a) = map fst o.
Proof.
  induction o as [|[k' c] o IH]; simpl; [discriminate|].
  destruct (String.eqb k' k); [reflexivity|].
  intros Hk. simpl. now rewrite IH.
Qed.

Lemma own_property_set o k k' a :
  own_property k' (obj_set o k a) =
  if String.eqb k k' then Some a else own_property k' o.
Proof.
  induction o as [|[k0 b] o IH]; simpl.
  - reflexivity.
  - destruct (String.eqb_spec k0 k) as [->|Hne]; simpl.
    + destruct (String.eqb k k'); reflexivity.
    + rewrite IH. destruct (String.eqb_spec k0 k') as [->|Hne'].
      * destruct (String.eqb_spec k k') as [->|_]; [now elim Hne|reflexivity].
      * reflexivity.
Qed.

End ObjectFacts.

(** ** The order of [Object.entries] *)

Section EntriesFacts.

Context {A : Type}.
Implicit Types (o : object A).

Lemma insert_index_perm {B : Type} (e : N * B) (l : list (N * B)) :
  Permutation (insert_index e l) (e :: l).
Proof.
  induction l as [|e' l IH]; simpl; [reflexivity|].
  destruct (N.leb (fst e) (fst e')); [reflexivity|].
  rewrite IH. apply perm_swap.
Qed.

Lemma sort_index_perm {B : Type} (l : list (N * B)) :
  Permutation (sort_index l) l.
Proof.
  induction l as [|e l IH]; simpl; [reflexivity|].
  rewrite insert_index_perm. now constructor.
Qed.

Lemma index_named_perm o :
  Permutation (map snd (index_entries o) ++ named_entries o) o.
Proof.
  induction o as [|e o IH]; simpl; [reflexivity|].
  unfold is_array_index. destruct (array_index (fst e)); simpl.
  - now constructor.
  - symmetry. apply Permutation_cons_app. now symmetry.
Qed.

Lemma Object_entries_perm o : Permutation (Object_entries o) o.
Proof.
  unfold Object_entries.
  apply Permutation_trans with (map snd (index_entries o) ++ named_entries o).
  - apply Permutation_app_tail, Permutation_map, sort_index_perm.
  - apply index_named_perm.
Qed.

(** Without array indices among the keys, the entries come in creation
    order. *)
Lemma Object_entries_named o :
  Forall (fun k => array_index k = None) (map fst o) ->
  Object_entries o = o.
Proof.
  intros Hk.
  assert (index_entries o = [] /\ named_entries o = o) as [Hi Hn].
  { unfold index_entries, named_entries.
    induction o as [|e o IH]; simpl; [now split|].
    inversion Hk as [|k ks Hnone Hrest]; subst.
    destruct (IH Hrest) as [IHi IHn].
    unfold is_array_index. rewrite Hnone. simpl.
    split; [exact IHi|]. f_equal. exact IHn. }
  unfold Object_entries. now rewrite Hi, Hn.
Qed.

(** Sorting by index commutes with a map on the payload. *)
Lemma insert_index_map {B C : Type} (f : B -> C) (e : N * B) l :
  map (fun p => (fst p, f (snd p))) (insert_index e l) =
  insert_index (fst e, f (snd e)) (map (fun p => (fst p, f (snd p))) l).
Proof.
  induction l as [|e' l IH]; simpl; [reflexivity|].
  destruct (N.leb (fst e) (fst e')); simpl; [reflexivity|].
  now rewrite IH.
Qed.

Lemma sort_index_map {B C : Type} (f : B -> C) (l : list (N * B)) :
  map (fun p => (fst p, f (snd p))) (sort_index l) =
  sort_index (map (fun p => (fst p, f (snd p))) l).
Proof.
  induction l as [|e l IH]; simpl; [reflexivity|].
  now rewrite insert_index_map, IH.
Qed.

Lemma index_entries_keys o :
  map (fun p => (fst p, fst (snd p))) (index_entries o) =
  index_keys (map fst o).
Proof.
  unfold index_entries, index_keys.
  induction o as [|e o IH]; simpl; [reflexivity|].
  destruct (array_index (fst e)); simpl; now rewrite IH.
Qed.

Lemma Object_entries_keys o :
  map fst (Object_entries o) = entries_order (map fst o).
Proof.
  unfold Object_entries, entries_order, named_entries.
  rewrite map_app. f_equal.
  - rewrite <- index_entries_keys, <- sort_index_map, !map_map.
    reflexivity.
  - induction o as [|e o IH]; simpl; [reflexivity|].
    destruct (is_array_index (fst e)); simpl; now rewrite IH.
Qed.

End EntriesFacts.

(** ** The reducer of [groupDataByField] *)

Section GroupFacts.

Context {num : Type} `{JSNumber num}.
Implicit Types (g : object (list (item num))) (it : item num).
Implicit Types (data : list (item num)) (k field : string).

Lemma obj_set_twice {A : Type} (o : object A) k (a b : A) :
  obj_set (obj_set o k a) k b = obj_set o k b.
Proof.
  induction o as [|[k' c] o IH]; simpl.
  - now rewrite String.eqb_refl.
  - destruct (String.eqb k' k) eqn:E; simpl; rewrite E; [reflexivity|].
    now rewrite IH.
Qed.

(** A key that is already an own property, or that the prototype does not
    define, is pushed to its group. *)
Lemma group_item_normal field g it :
  own_property (key_of field it) g <> None \/ plain_key (key_of field it) ->
  group_item field g it = Normal (push_group (key_of field it) it g).
Proof.
  unfold group_item, push_group, obj_get, key_of, plain_key.
  set (k := ToPropertyKey (get it field)).
  destruct (own_property k g) as [items|] eqn:Hown; simpl.
  - intros _. now rewrite Hown.
  - intros [Hk|Hk]; [now elim Hk|]. rewrite Hk. simpl.
    rewrite own_property_set, String.eqb_refl, obj_set_twice.
    simpl. now rewrite obj_set_new.
Qed.

(** A new key that names a member of [Object.prototype] finds that member
    instead of an array, and [push] fails. *)
Lemma group_item_throws field g it :
  own_property (key_of field it) g = None ->
  inherited (key_of field it) = true ->
  group_item field g it = Throw TypeError.
Proof.
  unfold group_item, obj_get, key_of. intros Hown Hk.
  rewrite Hown, Hk. simpl. now rewrite Hown.
Qed.

Lemma reduce_throw field data (e : error) :
  fold_left (fun groups it => bind groups (fun g => group_item field g it))
            data (Throw e) = Throw e.
Proof. induction data as [|it data IH]; simpl; [reflexivity|exact IH]. Qed.

Lemma reduce_plain field data g :
  Forall plain_key (keys_of field data) ->
  fold_left (fun groups it => bind groups (fun g => group_item field g it))
            data (Normal g) = Normal (grouped field data g).
Proof.
  revert g. induction data as [|it data IH]; simpl; intros g Hk.
  - reflexivity.
  - inversion Hk as [|k ks Hplain Hrest]; subst.
    rewrite group_item_normal by now right.
    now apply IH.
Qed.

Lemma groupDataByField_plain field data :
  Forall plain_key (keys_of field data) ->
  groupDataByField (Some data) field = Normal (grouped field data []).
Proof.
  intros Hk. unfold groupDataByField.
  destruct data as [|it data]; [reflexivity|].
  cbn [no_data elements]. now apply reduce_plain.
Qed.

(** *** The keys of the groups *)

Lemma push_group_keys k it g :
  map fst (push_group k it g) =
  if existsb (String.eqb k) (map fst g) then map fst g else map fst g ++ [k].
Proof.
  unfold push_group.
  destruct (own_property k g) as [items|] eqn:Hown.
  - rewrite (obj_set_keys _ _ _ Hown).
    apply own_property_In, (in_map fst) in Hown. simpl in Hown.
    replace (existsb (String.eqb k) (map fst g)) with true; [reflexivity|].
    symmetry. apply existsb_exists. exists k. split; [exact Hown|].
    apply String.eqb_refl.
  - rewrite map_app. simpl.
    replace (existsb (String.eqb k) (map fst g)) with false; [reflexivity|].
    symmetry. apply not_true_is_false. intros Hex.
    apply existsb_exists in Hex as (k' & Hin & Heq).
    apply String.eqb_eq in Heq. subst k'.
    now apply own_property_None in Hown.
Qed.

Lemma filter_not_in_app (seen : list string) (k : string) (l : list string) :
  filter (fun k' => negb (existsb (String.eqb k') (seen ++ [k]))) l =
  filter (fun k' => negb (existsb (String.eqb k') seen))
         (filter (fun k' => negb (String.eqb k' k)) l).
Proof.
  induction l as [|x l IH]; simpl; [reflexivity|].
  rewrite existsb_app. simpl. rewrite orb_false_r.
  destruct (String.eqb x k); simpl.
  - rewrite orb_true_r. simpl. exact IH.
  - rewrite orb_false_r.
    destruct (existsb (String.eqb x) seen); simpl; now rewrite IH.
Qed.

Lemma filter_seen (seen : list string) (k : string) (l : list string) :
  existsb (String.eqb k) seen = true ->
  filter (fun k' => negb (existsb (String.eqb k') seen))
         (filter (fun k' => negb (String.eqb k' k)) l) =
  filter (fun k' => negb (existsb (String.eqb k') seen)) l.
Proof.
  intros Hk. induction l as [|x l IH]; simpl; [reflexivity|].
  destruct (String.eqb_spec x k) as [->|_]; simpl.
  - rewrite Hk. simpl. exact IH.
  - now rewrite IH.
Qed.

Lemma grouped_keys_from field data g :
  map fst (grouped field data g) =
  map fst g ++
  filter (fun k' => negb (existsb (String.eqb k') (map fst g)))
         (first_occurrences (keys_of field data)).
Proof.
  revert g. induction data as [|it data IH]; simpl; intros g.
  - now rewrite app_nil_r.
  - unfold grouped in *. simpl. rewrite IH, push_group_keys.
    fold (keys_of field data).
    set (k := key_of field it).
    destruct (existsb (String.eqb k) (map fst g)) eqn:Hk; simpl.
    + now rewrite filter_seen.
    + rewrite <- app_assoc. simpl. now rewrite filter_not_in_app.
Qed.

(** The groups are created in the order in which their keys first occur. *)
Lemma grouped_keys field data :
  map fst (grouped field data []) = first_occurrences (keys_of field data).
Proof.
  rewrite grouped_keys_from. simpl.
  induction (first_occurrences (keys_of field data)) as [|k l IH];
    simpl; [reflexivity|now rewrite IH].
Qed.

End GroupFacts.

(** ** The members of the groups *)

Section MemberFacts.

Context {num : Type} `{JSNumber num}.
Implicit Types (g : object (list (item num))) (it : item num).
Implicit Types (data : list (item num)) (k field : string).

Lemma push_group_own k k' it g :
  own_property k' (push_group k it g) =
  if String.eqb k k'
  then Some (match own_property k g with
             | Some items => items ++ [it]
             | None => [it]
             end)
  else own_property k' g.
Proof.
  unfold push_group.
  destruct (own_property k g) as [items|] eqn:Hown.
  - apply own_property_set.
  - rewrite own_property_app. simpl.
    destruct (String.eqb_spec k k') as [<-|_].
    + now rewrite Hown.
    + now destruct (own_property k' g).
Qed.

(** Each group holds the rows of its key, in their original order. *)
Lemma grouped_own field data g k :
  own_property k (grouped field data g) =
  match own_property k g, filter (fun it => String.eqb (key_of field it) k) data with
  | Some items, rows => Some (items ++ rows)
  | None, [] => None
  | None, rows => Some rows
  end.
Proof.
  revert g. induction data as [|it data IH]; intros g; simpl.
  - destruct (own_property k g); [now rewrite app_nil_r|reflexivity].
  - unfold grouped in *. simpl. rewrite IH, push_group_own.
    destruct (String.eqb_spec (key_of field it) k) as [->|Hne].
    + destruct (own_property k g); [now rewrite <- app_assoc|reflexivity].
    + reflexivity.
Qed.

Lemma obj_set_members {A : Type} (o : object (list A)) k (items extra : list A) :
  own_property k o = Some items ->
  Permutation (flat_map snd (obj_set o k (items ++ extra)))
              (flat_map snd o ++ extra).
Proof.
  induction o as [|[k' l] o IH]; simpl; [discriminate|].
  destruct (String.eqb k' k).
  - intros [= ->]. simpl. rewrite <- !app_assoc.
    apply Permutation_app_head, Permutation_app_comm.
  - intros Hown. simpl. rewrite <- !app_assoc.
    apply Permutation_app_head, IH, Hown.
Qed.

Lemma push_group_members k it g :
  Permutation (flat_map snd (push_group k it g)) (flat_map snd g ++ [it]).
Proof.
  unfold push_group.
  destruct (own_property k g) as [items|] eqn:Hown.
  - now apply obj_set_members.
  - rewrite flat_map_app. simpl. reflexivity.
Qed.

(** Grouping loses no row and repeats none. *)
Lemma grouped_members field data g :
  Permutation (flat_map snd (grouped field data g)) (flat_map snd g ++ data).
Proof.
  revert g. induction data as [|it data IH]; intros g; simpl.
  - now rewrite app_nil_r.
  - unfold grouped in *. simpl.
    eapply Permutation_trans; [apply IH|].
    eapply Permutation_trans;
      [apply Permutation_app_tail, push_group_members|].
    rewrite <- app_assoc. reflexivity.
Qed.

Lemma first_occurrences_In (keys : list string) k :
  In k (first_occurrences keys) <-> In k keys.
Proof.
  induction keys as [|k' keys IH]; simpl; [reflexivity|].
  rewrite filter_In, IH, negb_true_iff.
  destruct (String.eqb_spec k k') as [->|Hne].
  - split; auto.
  - split.
    + intros [->|[Hin _]]; auto.
    + intros [->|Hin]; [now elim Hne|auto].
Qed.

Lemma first_occurrences_NoDup (keys : list string) :
  NoDup (first_occurrences keys).
Proof.
  induction keys as [|k keys IH]; simpl; constructor.
  - rewrite filter_In, String.eqb_refl. now intros [_ [=]].
  - now apply NoDup_filter.
Qed.

(** ** [aggregateByField] on plain keys *)

Lemma aggregateByField_plain data groupField valueField :
  Forall plain_key (keys_of groupField data) ->
  aggregateByField (Some data) groupField valueField =
  Normal (map (aggregate_entry valueField)
              (Object_entries (grouped groupField data []))).
Proof.
  intros Hk. unfold aggregateByField.
  destruct data as [|it data]; [reflexivity|].
  cbn [no_data]. now rewrite groupDataByField_plain.
Qed.

Lemma aggregate_entry_key valueField (entries : object (list (item num))) :
  map (@row_key num) (map (aggregate_entry valueField) entries) =
  map fst entries.
Proof.
  rewrite map_map. apply map_ext. now intros [k items].
Qed.

Lemma aggregate_entry_count valueField (entries : object (list (item num))) :
  total_count (map (aggregate_entry valueField) entries) =
  List.length (flat_map snd entries).
Proof.
  unfold total_count. rewrite map_map.
  induction entries as [|[k items] entries IH]; simpl; [reflexivity|].
  now rewrite length_app, IH.
Qed.

(** On plain keys every row is counted in exactly one group. *)
Lemma aggregateByField_count data groupField valueField :
  Forall plain_key (keys_of groupField data) ->
  exists rows,
    aggregateByField (Some data) groupField valueField = Normal rows /\
    total_count rows = List.length data.
Proof.
  intros Hk. eexists. split; [now apply aggregateByField_plain|].
  rewrite aggregate_entry_count.
  apply Permutation_length.
  eapply Permutation_trans.
  - apply Permutation_flat_map, Object_entries_perm.
  - apply (grouped_members groupField data []).
Qed.

End MemberFacts.

(** ** Sums *)

Section SumFacts.

Context {num : Type} `{JSNumber num}.
Implicit Types (it : item num) (data items : list (item num)).
Implicit Types (field : string) (a b : num).

Lemma number_or_falsy_no_text (v : value num) :
  number_or_falsy v -> no_text v.
Proof.
  destruct v as [| | |n|s]; simpl; auto.
  intros Hs. apply negb_false_iff in Hs. now apply String.eqb_eq.
Qed.

Lemma amount_contribution field it :
  number_or_falsy (get it field) ->
  amount field it = contribution (get it field).
Proof.
  unfold amount, js_or.
  destruct (get it field) as [| |b|n|s]; simpl; try reflexivity.
  - now intros ->.
  - intros _. now destruct (nfalsy n).
  - now intros ->.
Qed.

(** On anything but a non-empty string, [sum + (v || 0)] stays a number. *)
Lemma add_field_number field a it :
  no_text (get it field) ->
  add_field field (VNum a) it = VNum (nadd a (amount field it)).
Proof.
  unfold add_field, amount, js_or.
  destruct (get it field) as [| |b|n|s]; simpl; try reflexivity.
  - now destruct b.
  - now destruct (nfalsy n).
  - now intros ->.
Qed.

Lemma sum_numbers field items a :
  Forall (fun it => no_text (get it field)) items ->
  fold_left (add_field field) items (VNum a) =
  VNum (fold_left nadd (map (amount field) items) a).
Proof.
  revert a. induction items as [|it items IH]; intros a Hn;
    cbn [fold_left map].
  - reflexivity.
  - inversion Hn as [|x xs Hit Hrest]; subst.
    rewrite add_field_number by exact Hit. now apply IH.
Qed.

(** Once the sum is a string it stays one. *)
Lemma sum_text field items (s : string) :
  exists s', fold_left (add_field field) items (VStr s) = VStr s'.
Proof.
  revert s. induction items as [|it items IH]; intros s; cbn [fold_left].
  - now exists s.
  - apply IH.
Qed.

(** A non-empty string in the field turns the sum into a string. *)
Lemma sum_with_text field items (v : value num) :
  Exists (fun it => ~ no_text (get it field)) items ->
  exists s, fold_left (add_field field) items v = VStr s.
Proof.
  intros Hex. revert v. induction Hex as [it items Hit|it items _ IH];
    intros v; cbn [fold_left].
  - assert (exists s, add_field field v it = VStr s) as [s ->].
    { unfold add_field, js_or.
      destruct (get it field) as [| | | |t]; simpl in Hit;
        try (now elim Hit).
      cbn [ToBoolean].
      destruct (String.eqb_spec t "") as [->|_]; [now elim Hit|].
      simpl. destruct v; eexists; reflexivity. }
    apply sum_text.
  - apply IH.
Qed.

End SumFacts.


(** * The claims of the specification *)

Unset Implicit Arguments.

Lemma entries_order_perm (keys : list string) :
  Permutation (entries_order keys) keys.
Proof.
  unfold entries_order.
  apply Permutation_trans
    with (map snd (index_keys keys)
          ++ filter (fun k => negb (is_array_index k)) keys).
  - apply Permutation_app_tail, Permutation_map, sort_index_perm.
  - unfold index_keys, is_array_index.
    induction keys as [|k keys IH]; simpl; [reflexivity|].
    destruct (array_index k); simpl.
    + now constructor.
    + symmetry. apply Permutation_cons_app. now symmetry.
Qed.

(** ** Sums without rounding *)

(** ** Sums of doubles that are integers

    Below 2^53 in absolute value, the sum of two doubles that are
    integers is the double of the sum of the integers: nothing is
    rounded. *)

Section IntegralDoubles.

Local Open Scope Z_scope.

Lemma digits_shl k p :
  Zpos (digits2_pos (Integral.shl k p)) = Zpos (digits2_pos p) + Z.of_nat k.
Proof.
  induction k as [|k IH]; [simpl; lia|].
  change (Integral.shl (S k) p) with (xO (Integral.shl k p)).
  cbn [digits2_pos]. rewrite Pos2Z.inj_succ, IH. lia.
Qed.

Lemma Zpos_shl k p : Zpos (Integral.shl k p) = Zpos p * 2 ^ Z.of_nat k.
Proof.
  induction k as [|k IH]; [simpl; lia|].
  change (Integral.shl (S k) p) with (xO (Integral.shl k p)).
  rewrite (Pos2Z.inj_xO (Integral.shl k p)), IH, Nat2Z.inj_succ.
  rewrite Z.pow_succ_r by lia. lia.
Qed.

Lemma pos_iter_shl p d : Pos.iter xO p d = Integral.shl (Pos.to_nat d) p.
Proof. unfold Integral.shl. rewrite Pos2Nat.inj_iter. reflexivity. Qed.

Lemma iter_pos_nat {A : Type} (f : A -> A) n x :
  iter_pos f n x = Nat.iter (Pos.to_nat n) f x.
Proof.
  revert x. induction n as [n IH|n IH|]; intros x; cbn [iter_pos].
  - rewrite !IH, Pos2Nat.inj_xI. cbn [Nat.iter Nat.mul].
    rewrite Nat.add_0_r. rewrite <- Nat.iter_add, Nat.iter_succ_r. reflexivity.
  - rewrite !IH, Pos2Nat.inj_xO. cbn [Nat.mul]. rewrite Nat.add_0_r.
    now rewrite <- Nat.iter_add.
  - reflexivity.
Qed.

Lemma shr_shl k p :
  Nat.iter k shr_1
    {| shr_m := Zpos (Integral.shl k p); shr_r := false; shr_s := false |} =
  {| shr_m := Zpos p; shr_r := false; shr_s := false |}.
Proof.
  induction k as [|k IH]; [reflexivity|].
  rewrite Nat.iter_succ_r.
  change (Integral.shl (S k) p) with (xO (Integral.shl k p)).
  cbn [shr_1 orb]. exact IH.
Qed.

Lemma digits_bound p :
  2 ^ (Zpos (digits2_pos p) - 1) <= Zpos p < 2 ^ Zpos (digits2_pos p).
Proof.
  induction p as [p IH|p IH|]; cbn [digits2_pos].
  - rewrite Pos2Z.inj_succ, (Pos2Z.inj_xI p).
    set (d := Zpos (digits2_pos p)) in *.
    replace (Z.succ d - 1) with d by lia.
    rewrite Z.pow_succ_r by (unfold d; lia).
    assert (2 ^ d = 2 * 2 ^ (d - 1)) as Hd.
    { rewrite <- Z.pow_succ_r by (unfold d; lia). f_equal. lia. }
    lia.
  - rewrite Pos2Z.inj_succ, (Pos2Z.inj_xO p).
    set (d := Zpos (digits2_pos p)) in *.
    replace (Z.succ d - 1) with d by lia.
    rewrite Z.pow_succ_r by (unfold d; lia).
    assert (2 ^ d = 2 * 2 ^ (d - 1)) as Hd.
    { rewrite <- Z.pow_succ_r by (unfold d; lia). f_equal. lia. }
    lia.
  - simpl. lia.
Qed.

Lemma digits_le p n : 0 <= n -> Zpos p < 2 ^ n -> Zpos (digits2_pos p) <= n.
Proof.
  intros Hn Hp. destruct (digits_bound p) as [Hlo _].
  destruct (Z_le_gt_dec (Zpos (digits2_pos p)) n) as [|Hgt]; [assumption|].
  assert (2 ^ n <= 2 ^ (Zpos (digits2_pos p) - 1))
    by (apply Z.pow_le_mono_r; lia).
  lia.
Qed.

Lemma shl_shl j k p :
  Integral.shl j (Integral.shl k p) = Integral.shl (j + k) p.
Proof. unfold Integral.shl. now rewrite Nat.iter_add. Qed.

(** A mantissa of 53 digits is not shifted. *)
Lemma shr_fexp_full m e :
  Zpos (digits2_pos m) = 53 -> -1074 <= e ->
  shr_fexp prec emax (Zpos m) e loc_Exact =
  ({| shr_m := Zpos m; shr_r := false; shr_s := false |}, e).
Proof.
  intros Hd He. unfold shr_fexp. cbn [Zdigits2 shr_record_of_loc].
  rewrite Hd.
  assert (fexp prec emax (53 + e) = e) as Hf.
  { unfold fexp, emin, prec, emax. lia. }
  now rewrite Hf, Z.sub_diag.
Qed.

(** A mantissa of 53 digits is kept as it is. *)
Lemma round_full s m e :
  Zpos (digits2_pos m) = 53 -> -1074 <= e <= 971 ->
  binary_round_aux prec emax s (Zpos m) e loc_Exact = S754_finite s m e.
Proof.
  intros Hd He. unfold binary_round_aux.
  rewrite shr_fexp_full by (assumption || lia).
  cbn [shr_m loc_of_shr_record round_nearest_even].
  rewrite shr_fexp_full by (assumption || lia). cbn [shr_m].
  destruct (Z.leb_spec e (emax - prec)) as [|Hgt]; [reflexivity|].
  unfold emax, prec in Hgt. lia.
Qed.

(** The rounding of the integer N * 2^k, given as the mantissa N * 2^k at
    the exponent -k. *)
Lemma round_integer s N k :
  Zpos (digits2_pos N) <= 53 ->
  binary_round prec emax s (Integral.shl k N) (- Z.of_nat k) =
  S754_finite s (Integral.shl (Z.to_nat (53 - Zpos (digits2_pos N))) N)
              (Zpos (digits2_pos N) - 53).
Proof.
  intros HD. set (D := Zpos (digits2_pos N)) in *.
  assert (0 < D) as HD0 by (unfold D; lia).
  unfold binary_round. rewrite digits_shl. fold D.
  assert (fexp prec emax (D + Z.of_nat k + - Z.of_nat k) = D - 53) as Hf.
  { unfold fexp, emin, prec, emax. lia. }
  rewrite Hf. unfold shl_align.
  destruct (D - 53 - - Z.of_nat k) as [|d|d] eqn:Hd.
  - (* already 53 digits at the right exponent *)
    assert (Z.of_nat k = 53 - D) as Hk by lia.
    rewrite round_full.
    + f_equal; [|lia]. f_equal. lia.
    + rewrite digits_shl. fold D. lia.
    + lia.
  - (* too many digits: shift right, the bits dropped are zeros *)
    unfold binary_round_aux, shr_fexp at 1.
    cbn [Zdigits2 shr_record_of_loc]. rewrite digits_shl. fold D.
    rewrite Hf, Hd. cbn [shr].
    assert (iter_pos shr_1 d
              {| shr_m := Zpos (Integral.shl k N);
                 shr_r := false; shr_s := false |} =
            {| shr_m := Zpos (Integral.shl (Z.to_nat (53 - D)) N);
               shr_r := false; shr_s := false |}) as Hshr.
    { rewrite iter_pos_nat.
      replace k with (Pos.to_nat d + Z.to_nat (53 - D))%nat by lia.
      now rewrite <- shl_shl, shr_shl. }
    rewrite Hshr.
    cbn [shr_m loc_of_shr_record round_nearest_even].
    rewrite shr_fexp_full.
    + cbn [shr_m].
      destruct (Z.leb_spec (- Z.of_nat k + Zpos d) (emax - prec)) as [|Hgt].
      * f_equal. lia.
      * unfold emax, prec in Hgt. lia.
    + rewrite digits_shl. fold D. lia.
    + lia.
  - (* too few digits: shift left *)
    rewrite pos_iter_shl, shl_shl, round_full.
    + f_equal. f_equal. lia.
    + rewrite digits_shl. fold D. lia.
    + lia.
Qed.

(** The double of an integer below 2^53 in absolute value. *)
Lemma nrm_pos p :
  Zpos p < 2 ^ 53 ->
  Integral.nrm (Zpos p) =
  S754_finite false (Integral.shl (Z.to_nat (53 - Zpos (digits2_pos p))) p)
              (Zpos (digits2_pos p) - 53).
Proof.
  intros Hp. unfold Integral.nrm, binary_normalize.
  apply (round_integer false p 0). apply digits_le; lia.
Qed.

Lemma nrm_neg p :
  Zpos p < 2 ^ 53 ->
  Integral.nrm (Zneg p) =
  S754_finite true (Integral.shl (Z.to_nat (53 - Zpos (digits2_pos p))) p)
              (Zpos (digits2_pos p) - 53).
Proof.
  intros Hp. unfold Integral.nrm, binary_normalize.
  apply (round_integer true p 0). apply digits_le; lia.
Qed.

Lemma nrm_valid z : Z.abs z < 2 ^ 53 -> valid_binary (Integral.nrm z) = true.
Proof.
  intros Hz. destruct z as [|p|p]; [reflexivity| |].
  - rewrite nrm_pos by exact Hz. cbn [SpecFloat.valid_binary].
    unfold bounded, canonical_mantissa. rewrite digits_shl.
    assert (Zpos (digits2_pos p) <= 53) by (apply digits_le; lia).
    apply andb_true_intro. split.
    + apply Z.eqb_eq. unfold fexp, emin, prec, emax. lia.
    + apply Z.leb_le. unfold prec, emax. lia.
  - rewrite nrm_neg by exact Hz. cbn [SpecFloat.valid_binary].
    unfold bounded, canonical_mantissa. rewrite digits_shl.
    assert (Zpos (digits2_pos p) <= 53) by (apply digits_le; lia).
    apply andb_true_intro. split.
    + apply Z.eqb_eq. unfold fexp, emin, prec, emax. lia.
    + apply Z.leb_le. unfold prec, emax. lia.
Qed.

Lemma shl_align_fst N ez :
  ez <= Zpos (digits2_pos N) - 53 -> Zpos (digits2_pos N) <= 53 ->
  fst (shl_align (Integral.shl (Z.to_nat (53 - Zpos (digits2_pos N))) N)
                 (Zpos (digits2_pos N) - 53) ez) =
  Integral.shl (Z.to_nat (- ez)) N.
Proof.
  intros He HD. unfold shl_align.
  destruct (ez - (Zpos (digits2_pos N) - 53)) as [|d|d] eqn:Hd; cbn [fst].
  - f_equal. lia.
  - lia.
  - rewrite pos_iter_shl, shl_shl. f_equal. lia.
Qed.

Lemma cond_Zopp_shl s k p :
  cond_Zopp s (Zpos (Integral.shl k p)) = cond_Zopp s (Zpos p) * 2 ^ Z.of_nat k.
Proof. destruct s; cbn [cond_Zopp]; rewrite Zpos_shl; lia. Qed.

Lemma normalize_integer z k :
  Z.abs z < 2 ^ 53 ->
  binary_normalize prec emax (z * 2 ^ Z.of_nat k) (- Z.of_nat k) false =
  Integral.nrm z.
Proof.
  intros Hz. destruct z as [|c|c].
  - reflexivity.
  - rewrite nrm_pos by exact Hz. rewrite <- Zpos_shl.
    apply round_integer. apply digits_le; lia.
  - rewrite nrm_neg by exact Hz.
    replace (Zneg c * 2 ^ Z.of_nat k) with (Zneg (Integral.shl k c))
      by (rewrite <- !Pos2Z.opp_pos, Zpos_shl; lia).
    apply round_integer. apply digits_le; lia.
Qed.

Lemma add_finite sa A sb B :
  Zpos A < 2 ^ 53 -> Zpos B < 2 ^ 53 ->
  Z.abs (cond_Zopp sa (Zpos A) + cond_Zopp sb (Zpos B)) < 2 ^ 53 ->
  SF64add
    (S754_finite sa (Integral.shl (Z.to_nat (53 - Zpos (digits2_pos A))) A)
                 (Zpos (digits2_pos A) - 53))
    (S754_finite sb (Integral.shl (Z.to_nat (53 - Zpos (digits2_pos B))) B)
                 (Zpos (digits2_pos B) - 53)) =
  Integral.nrm (cond_Zopp sa (Zpos A) + cond_Zopp sb (Zpos B)).
Proof.
  intros HA HB Hsum.
  assert (Zpos (digits2_pos A) <= 53) as HDA by (apply digits_le; lia).
  assert (Zpos (digits2_pos B) <= 53) as HDB by (apply digits_le; lia).
  unfold SF64add, SFadd.
  set (ez := Z.min (Zpos (digits2_pos A) - 53) (Zpos (digits2_pos B) - 53)).
  rewrite !shl_align_fst by (unfold ez; lia).
  rewrite !cond_Zopp_shl, <- Z.mul_add_distr_r.
  assert (ez = - Z.of_nat (Z.to_nat (- ez))) as Hez by (unfold ez; lia).
  clearbody ez. remember (Z.to_nat (- ez)) as k eqn:Hk. clear Hk. subst ez.
  now apply normalize_integer.
Qed.

Lemma add_integers a b :
  Z.abs a < 2 ^ 53 -> Z.abs b < 2 ^ 53 -> Z.abs (a + b) < 2 ^ 53 ->
  SF64add (Integral.nrm a) (Integral.nrm b) = Integral.nrm (a + b).
Proof.
  intros Ha Hb Hab.
  destruct a as [|A|A].
  - destruct b as [|B|B]; [reflexivity| |].
    + rewrite Z.add_0_l, nrm_pos by exact Hb. reflexivity.
    + rewrite Z.add_0_l, nrm_neg by exact Hb. reflexivity.
  - destruct b as [|B|B].
    + rewrite Z.add_0_r, nrm_pos by exact Ha. reflexivity.
    + rewrite (nrm_pos A), (nrm_pos B) by assumption.
      now apply (add_finite false A false B).
    + rewrite (nrm_pos A), (nrm_neg B) by assumption.
      now apply (add_finite false A true B).
  - destruct b as [|B|B].
    + rewrite Z.add_0_r, nrm_neg by exact Ha. reflexivity.
    + rewrite (nrm_neg A), (nrm_pos B) by assumption.
      now apply (add_finite true A false B).
    + rewrite (nrm_neg A), (nrm_neg B) by assumption.
      now apply (add_finite true A true B).
Qed.

Lemma of_Z_add a b :
  Z.abs a < 2 ^ 53 -> Z.abs b < 2 ^ 53 -> Z.abs (a + b) < 2 ^ 53 ->
  PrimFloat.add (Integral.of_Z a) (Integral.of_Z b) = Integral.of_Z (a + b).
Proof.
  intros Ha Hb Hab. apply Prim2SF_inj. rewrite add_spec. unfold Integral.of_Z.
  rewrite !Prim2SF_SF2Prim by now apply nrm_valid.
  now apply add_integers.
Qed.

End IntegralDoubles.

Example integral_doubles :
  map Integral.of_Z [0; 10; 35; -3; 9007199254740991]%Z =
    [0; 10; 35; -3; 9007199254740991]%float /\
  map Integral.to_Z [0; 10; 35; -3; 9007199254740991]%float =
    [0; 10; 35; -3; 9007199254740991]%Z /\
  PrimFloat.add (Integral.of_Z 9007199254740992) (Integral.of_Z 1) =
    Integral.of_Z 9007199254740992.
Proof. vm_compute. repeat split. Qed.

Section ExactRuns.

Context {num : Type} `{JSNumber num}.
Implicit Types (data : list (item num)) (rho : Z -> num).

Lemma zsum_app (l l' : list Z) : zsum (l ++ l') = (zsum l + zsum l')%Z.
Proof.
  unfold zsum. induction l as [|z l IH]; simpl; [reflexivity|].
  rewrite IH. apply Z.add_assoc.
Qed.

Lemma zsum_perm (l l' : list Z) : Permutation l l' -> zsum l = zsum l'.
Proof.
  unfold zsum.
  induction 1 as [|z l l' _ IH|y z l|l l' l'' _ IH1 _ IH2]; simpl.
  - reflexivity.
  - now rewrite IH.
  - rewrite !Z.add_assoc. f_equal. apply Z.add_comm.
  - now rewrite IH1.
Qed.

Lemma zsum_flat_map {A : Type} (f : A -> list Z) (l : list A) :
  zsum (flat_map f l) = zsum (map (fun a => zsum (f a)) l).
Proof.
  induction l as [|a l IH]; simpl; [reflexivity|].
  rewrite zsum_app, IH. reflexivity.
Qed.

(** A reduce whose additions are not rounded gives the image of the sum
    of the integers. *)
Lemma fold_exactly rho (acc : Z) (zs : list Z) :
  adds_exactly rho acc zs ->
  fold_left nadd (map rho zs) (rho acc) = rho (acc + zsum zs)%Z.
Proof.
  revert acc. induction zs as [|z zs IH]; simpl; intros acc.
  - intros _. now rewrite Z.add_0_r.
  - intros [Hadd Hrest]. rewrite Hadd, (IH _ Hrest).
    f_equal. unfold zsum. simpl. apply eq_sym, Z.add_assoc.
Qed.

Lemma sum_exactly rho (units : item num -> Z) (field : string) data :
  rho 0%Z = nzero ->
  Forall (fun it => no_text (get it field)) data ->
  Forall (fun it => amount field it = rho (units it)) data ->
  adds_exactly rho 0 (map units data) ->
  fold_left (add_field field) data (VNum nzero) =
  VNum (rho (zsum (map units data))).
Proof.
  intros Hzero Htext Hunits Hexact.
  rewrite sum_numbers by exact Htext. f_equal.
  replace (map (amount field) data) with (map rho (map units data)).
  - rewrite <- Hzero. now rewrite fold_exactly.
  - rewrite map_map. apply map_ext_in. intros it Hin.
    symmetry. now apply (proj1 (Forall_forall _ _) Hunits).
Qed.

(** The entries of the groups, key by key. *)
Lemma entries_of_grouped (field : string) data :
  Object_entries (grouped field data []) =
  map (fun k => (k, filter (fun it => String.eqb (key_of field it) k) data))
      (entries_order (first_occurrences (keys_of field data))).
Proof.
  rewrite <- grouped_keys, <- Object_entries_keys, map_map.
  rewrite <- (map_id (Object_entries (grouped field data []))) at 1.
  apply map_ext_in. intros [k items] Hin. simpl.
  apply (Permutation_in _ (Object_entries_perm _)) in Hin.
  assert (In k (map fst (grouped field data []))) as Hk
    by (now apply (in_map fst) in Hin).
  assert (own_property k (grouped field data []) = Some items) as Hown.
  { clear Hk. revert Hin.
    assert (NoDup (map fst (grouped field data []))) as Hnd
      by (rewrite grouped_keys; apply first_occurrences_NoDup).
    revert Hnd. generalize (grouped field data []).
    induction o as [|[k' b] o IH]; simpl; [intros _ []|].
    intros Hnd Hin. inversion Hnd as [|x xs Hnotin Hrest]; subst.
    destruct Hin as [[= -> ->]|Hin].
    - now rewrite String.eqb_refl.
    - destruct (String.eqb_spec k' k) as [->|_].
      + elim Hnotin. now apply (in_map fst) in Hin.
      + now apply IH. }
  rewrite grouped_own in Hown. simpl in Hown.
  destruct (filter _ data); [discriminate|]. now injection Hown as ->.
Qed.

(** The rows of all groups together are the input rows. *)
Lemma groups_cover (field : string) data :
  Permutation
    (flat_map (fun k => filter (fun it => String.eqb (key_of field it) k) data)
              (entries_order (first_occurrences (keys_of field data))))
    data.
Proof.
  eapply Permutation_trans; [|apply (grouped_members field data [])].
  eapply Permutation_trans;
    [|apply Permutation_flat_map, Object_entries_perm].
  rewrite entries_of_grouped, (flat_map_concat_map snd), map_map.
  cbn [snd]. rewrite <- flat_map_concat_map. reflexivity.
Qed.

(** The reduce over the rows' sums. *)
Lemma rows_total_exactly rho (g : string -> Z) (field : string)
    (rows : string -> list (item num)) (keys : list string) (acc : Z) :
  (forall k, In k keys ->
     fold_left (add_field field) (rows k) (VNum nzero) = VNum (rho (g k))) ->
  adds_exactly rho acc (map g keys) ->
  fold_left (fun sum row => js_add sum (row_sum row))
            (map (fun k => aggregate_entry field (k, rows k)) keys)
            (VNum (rho acc)) =
  VNum (rho (acc + zsum (map g keys))%Z).
Proof.
  revert acc. induction keys as [|k keys IH]; intros acc Hrows Hexact.
  - simpl. now rewrite Z.add_0_r.
  - destruct Hexact as [Hadd Hrest].
    cbn [map fold_left aggregate_entry row_sum].
    rewrite (Hrows k) by now left. cbn [js_add ToNumber]. rewrite Hadd.
    rewrite IH.
    + f_equal. f_equal. unfold zsum. simpl. apply eq_sym, Z.add_assoc.
    + intros k' Hk'. apply Hrows. now right.
    + exact Hrest.
Qed.

(** When no addition is rounded, the rows' sums add up to the sum of the
    integers of all rows, and so does the grand total. *)
Lemma totals_agree rho (units : item num -> Z) data (groupField : string) :
  rho 0%Z = nzero ->
  Forall plain_key (keys_of groupField data) ->
  Forall (fun it => no_text (get it "MV")) data ->
  Forall (fun it => amount "MV" it = rho (units it)) data ->
  adds_exactly rho 0 (map units data) ->
  Forall (fun k =>
            adds_exactly rho 0
              (map units
                   (filter (fun it => String.eqb (key_of groupField it) k)
                           data)))
         (keys_of groupField data) ->
  adds_exactly rho 0
    (map (fun k =>
            zsum (map units
                      (filter (fun it => String.eqb (key_of groupField it) k)
                              data)))
         (entries_order (first_occurrences (keys_of groupField data)))) ->
  exists rows,
    aggregateByField (Some data) groupField "MV" = Normal rows /\
    App.rows_total rows = VNum (rho (zsum (map units data))) /\
    fold_left (add_field "MV") data (VNum nzero) =
      VNum (rho (zsum (map units data))).
Proof.
  intros Hzero Hplain Htext Hunits Htotal Hgroups Hrows.
  eexists. split; [now apply aggregateByField_plain|].
  split; [|now apply sum_exactly].
  rewrite entries_of_grouped, map_map. unfold App.rows_total.
  rewrite <- Hzero.
  rewrite (rows_total_exactly rho
             (fun k => zsum (map units
                               (filter (fun it => String.eqb
                                                    (key_of groupField it) k)
                                       data)))).
  - do 2 f_equal. rewrite Z.add_0_l.
    rewrite <- (zsum_flat_map
                  (fun k => map units
                              (filter (fun it => String.eqb
                                                   (key_of groupField it) k)
                                      data))).
    apply zsum_perm.
    rewrite flat_map_concat_map, <- map_map, <- concat_map.
    rewrite <- flat_map_concat_map.
    apply Permutation_map, groups_cover.
  - intros k Hk.
    apply (Permutation_in _ (entries_order_perm _)) in Hk.
    apply (proj1 (first_occurrences_In _ _)) in Hk.
    apply sum_exactly.
    + exact Hzero.
    + apply Forall_forall. intros it Hit. apply filter_In in Hit as [Hit _].
      now apply (proj1 (Forall_forall _ _) Htext).
    + apply Forall_forall. intros it Hit. apply filter_In in Hit as [Hit _].
      now apply (proj1 (Forall_forall _ _) Hunits).
    + now apply (proj1 (Forall_forall _ _) Hgroups).
  - exact Hrows.
Qed.

End ExactRuns.

(** ** Totals of doubles that are integers *)

Section IntegralTotals.

Local Open Scope Z_scope.

Implicit Types (data : list (item float)) (units : item float -> Z).

Lemma abs_zsum (l : list Z) : Z.abs (zsum l) <= zsum (map Z.abs l).
Proof.
  unfold zsum. induction l as [|z l IH]; simpl; lia.
Qed.

Lemma zsum_abs_nonneg (l : list Z) : 0 <= zsum (map Z.abs l).
Proof.
  unfold zsum. induction l as [|z l IH]; simpl; lia.
Qed.

Lemma zsum_filter_le {A : Type} (u : A -> Z) (f : A -> bool) (l : list A) :
  (forall a, 0 <= u a) ->
  zsum (map u (filter f l)) <= zsum (map u l).
Proof.
  intros Hu. unfold zsum. induction l as [|a l IH]; simpl; [lia|].
  specialize (Hu a). destruct (f a); simpl; lia.
Qed.

Lemma abs_zsums_le {A : Type} (g : A -> list Z) (l : list A) :
  zsum (map Z.abs (map (fun a => zsum (g a)) l)) <=
  zsum (map (fun a => zsum (map Z.abs (g a))) l).
Proof.
  induction l as [|a l IH]; [cbn; lia|].
  cbn [map]. unfold zsum in *. cbn [fold_right].
  pose proof (abs_zsum (g a)) as Ha. unfold zsum in Ha. lia.
Qed.

(** Below 2^53 no addition of a run of integers is rounded. *)
Lemma adds_exactly_bounded (acc : Z) (zs : list Z) :
  Z.abs acc + zsum (map Z.abs zs) < 2 ^ 53 ->
  adds_exactly Integral.of_Z acc zs.
Proof.
  revert acc. induction zs as [|z zs IH]; intros acc; [now simpl|].
  cbn [map adds_exactly]. unfold zsum. cbn [fold_right].
  fold (zsum (map Z.abs zs)). intros Hb.
  pose proof (zsum_abs_nonneg zs) as Hpos.
  split.
  - apply (of_Z_add acc z); lia.
  - apply IH. lia.
Qed.

(** For doubles that are integers whose absolute values add up to less
    than 2^53, the rows' sums add up to the double of the sum of the
    integers, and so does the grand total. *)
Lemma integral_totals_agree units data (groupField : string) :
  Forall plain_key (keys_of groupField data) ->
  Forall (fun it => no_text (get it "MV")) data ->
  Forall (fun it => amount "MV" it = Integral.of_Z (units it)) data ->
  zsum (map (fun it => Z.abs (units it)) data) < 2 ^ 53 ->
  exists rows,
    aggregateByField (Some data) groupField "MV" = Normal rows /\
    App.rows_total rows = VNum (Integral.of_Z (zsum (map units data))) /\
    fold_left (add_field "MV") data (VNum nzero) =
      VNum (Integral.of_Z (zsum (map units data))).
Proof.
  intros Hplain Htext Hunits Hbound.
  apply (totals_agree Integral.of_Z units data groupField);
    try assumption.
  - reflexivity.
  - apply adds_exactly_bounded. rewrite map_map. cbn [Z.abs]. lia.
  - apply Forall_forall. intros k _. apply adds_exactly_bounded.
    rewrite map_map. cbn [Z.abs].
    pose proof (zsum_filter_le (fun it => Z.abs (units it))
                  (fun it => String.eqb (key_of groupField it) k) data
                  (fun it => Z.abs_nonneg (units it))) as Hle.
    lia.
  - apply adds_exactly_bounded. cbn [Z.abs].
    pose proof (abs_zsums_le
                  (fun k => map units
                              (filter (fun it => String.eqb
                                                   (key_of groupField it) k)
                                      data))
                  (entries_order
                     (first_occurrences (keys_of groupField data))))
      as Hle.
    cbv beta in Hle.
    rewrite <- (zsum_flat_map
                  (fun k => map Z.abs
                              (map units
                                 (filter (fun it => String.eqb
                                                      (key_of groupField it) k)
                                         data)))) in Hle.
    assert (Permutation
              (flat_map
                 (fun k => map Z.abs
                             (map units
                                (filter (fun it => String.eqb
                                                     (key_of groupField it) k)
                                        data)))
                 (entries_order
                    (first_occurrences (keys_of groupField data))))
              (map (fun it => Z.abs (units it)) data)) as Hperm.
    2:{ rewrite (zsum_perm _ _ Hperm) in Hle. lia. }
    { rewrite <- (map_map units Z.abs data).
      rewrite flat_map_concat_map.
      rewrite <- (map_map (fun k => map units
                                      (filter (fun it => String.eqb
                                                 (key_of groupField it) k)
                                              data))
                          (map Z.abs)).
      rewrite <- concat_map. apply Permutation_map.
      rewrite <- (map_map (fun k => filter (fun it => String.eqb
                                              (key_of groupField it) k) data)
                          (map units)).
      rewrite <- concat_map. apply Permutation_map.
      rewrite <- flat_map_concat_map. apply groups_cover. }
Qed.

End IntegralTotals.

(** ** Order of the aggregated rows *)

Lemma entries_order_named (keys : list string) :
  Forall (fun k => array_index k = None) keys -> entries_order keys = keys.
Proof.
  intros Hk.
  assert (index_keys keys = [] /\
          filter (fun k => negb (is_array_index k)) keys = keys) as [Hi Hn].
  { unfold index_keys. induction Hk as [|k keys Hnone _ [IHi IHn]]; simpl.
    - now split.
    - unfold is_array_index. rewrite Hnone. simpl.
      split; [exact IHi|]. f_equal. exact IHn. }
  unfold entries_order. now rewrite Hi, Hn.
Qed.

(** C1, counterexample: the fund 2030 is listed before the fund Retirement
    although it occurs after it. *)
Lemma first_occurrence_order_fails :
  exists rows,
    aggregateByField (Some numbered_funds) "Fund" "MV" = Normal rows /\
    map (@row_key _) rows = ["2030"; "Retirement"] /\
    first_occurrences (keys_of "Fund" numbered_funds) = ["Retirement"; "2030"] /\
    map (@row_key _) rows <> first_occurrences (keys_of "Fund" numbered_funds).
Proof.
  eexists. split; [vm_compute; reflexivity|].
  repeat split; try reflexivity. vm_compute. discriminate.
Qed.

(** C1, amended: for a group field and a value field that are two
    different names, neither of them count nor a member of
    [Object.prototype], and when no group key names a member of
    [Object.prototype], [aggregateByField] returns rows whose keys are the
    array indices among the group keys in ascending numeric order, followed
    by the other keys in first-occurrence order; when no group key is an
    array index, the rows are in first-occurrence order of the keys. *)
Theorem aggregate_key_order {num : Type} `{JSNumber num}
    (data : list (item num)) (groupField valueField : string) :
  row_fields groupField valueField ->
  Forall plain_key (keys_of groupField data) ->
  exists rows,
    aggregateByField (Some data) groupField valueField = Normal rows /\
    map (@row_key _) rows =
      entries_order (first_occurrences (keys_of groupField data)) /\
    (Forall (fun k => array_index k = None) (keys_of groupField data) ->
     map (@row_key _) rows = first_occurrences (keys_of groupField data)).
Proof.
  intros _ Hplain. eexists. split; [now apply aggregateByField_plain|].
  rewrite aggregate_entry_key, Object_entries_keys, grouped_keys.
  split; [reflexivity|].
  intros Hnamed. apply entries_order_named.
  apply Forall_forall. intros k Hin.
  apply (proj1 (first_occurrences_In _ _)) in Hin.
  now apply (proj1 (Forall_forall _ _) Hnamed).
Qed.

Lemma aggregate_key_order_witness :
  exists rows,
    aggregateByField (Some sample_records) "FundType" "MV" = Normal rows /\
    map (@row_key _) rows =
      entries_order (first_occurrences (keys_of "FundType" sample_records)) /\
    (Forall (fun k => array_index k = None) (keys_of "FundType" sample_records) ->
     map (@row_key _) rows =
       first_occurrences (keys_of "FundType" sample_records)).
Proof.
  apply (aggregate_key_order sample_records "FundType" "MV").
  - repeat split; try reflexivity; discriminate.
  - repeat constructor.
Defined.

(** ** The toggle *)

(** C2, counterexample: with Equity and its fund A selected, two clicks on
    Equity end with Equity selected and no fund, which is neither Top nor
    the state before; two clicks on A end with A selected. *)
Lemma toggle_twice_fails :
  let s := {| App.selectedFundType := Some "Equity";
              App.selectedSubFund := Some "A" |} in
  App.selectFundType "Equity" (App.selectFundType "Equity" s) =
    {| App.selectedFundType := Some "Equity"; App.selectedSubFund := None |} /\
  App.selectFundType "Equity" (App.selectFundType "Equity" s) <> App.initial /\
  App.selectFundType "Equity" (App.selectFundType "Equity" s) <> s /\
  App.selectedSubFund (App.selectSubFund "A" (App.selectSubFund "A" s)) = Some "A".
Proof. cbv zeta. repeat split; try reflexivity; discriminate. Qed.

(** C2, amended: a click on the active value deselects it; from a state in
    which x is not the selected fund type (Top in particular) two clicks
    on x lead to Top, and from a state in which y is not the selected
    sub-fund two clicks on y leave no sub-fund selected and the fund type
    unchanged. *)
Theorem toggle_twice (s : App.Selection) (x y : string) :
  App.selectedFundType s <> Some x ->
  App.selectedSubFund s <> Some y ->
  App.selectFundType x (App.selectFundType x s) = App.initial /\
  App.selectSubFund y (App.selectSubFund y s) =
    {| App.selectedFundType := App.selectedFundType s;
       App.selectedSubFund := None |} /\
  App.selectFundType x {| App.selectedFundType := Some x;
                          App.selectedSubFund := App.selectedSubFund s |} =
    App.initial /\
  App.selectSubFund y {| App.selectedFundType := App.selectedFundType s;
                         App.selectedSubFund := Some y |} =
    {| App.selectedFundType := App.selectedFundType s;
       App.selectedSubFund := None |}.
Proof.
  intros Hx Hy.
  assert (same_item x (App.selectedFundType s) = false) as Ex.
  { destruct s as [[t|] sub]; simpl in *; [|reflexivity].
    apply String.eqb_neq. congruence. }
  assert (same_item y (App.selectedSubFund s) = false) as Ey.
  { destruct s as [t [u|]]; simpl in *; [|reflexivity].
    apply String.eqb_neq. congruence. }
  unfold App.selectFundType, App.selectSubFund, handleClick.
  rewrite Ex, Ey. simpl. rewrite !String.eqb_refl. simpl.
  repeat split.
Qed.

Lemma toggle_twice_witness :
  App.selectFundType "Equity" (App.selectFundType "Equity" App.initial) =
    App.initial /\
  App.selectSubFund "A" (App.selectSubFund "A" App.initial) =
    {| App.selectedFundType := App.selectedFundType App.initial;
       App.selectedSubFund := None |} /\
  App.selectFundType "Equity"
    {| App.selectedFundType := Some "Equity";
       App.selectedSubFund := App.selectedSubFund App.initial |} =
    App.initial /\
  App.selectSubFund "A"
    {| App.selectedFundType := App.selectedFundType App.initial;
       App.selectedSubFund := Some "A" |} =
    {| App.selectedFundType := App.selectedFundType App.initial;
       App.selectedSubFund := None |}.
Proof.
  apply (toggle_twice App.initial "Equity" "A"); simpl; discriminate.
Defined.

(** ** The sum of a field *)

(** C3, the failing input: a market value cell holding the text n/a is
    not counted as 0: the total of 10 and n/a is the string 10n/a, where
    the function is documented to return a number and the sum of the
    specification is 10. *)
Lemma text_is_not_zero :
  calculateTotalAUM (Some text_cell) = VStr "10n/a" /\
  spec_sumField text_cell "MV" = VNum (Exact.Int 10) /\
  calculateTotalAUM (Some text_cell) <> spec_sumField text_cell "MV" /\
  toFixed (calculateTotalAUM (Some text_cell)) 1 = Throw TypeError.
Proof. repeat split; try reflexivity. vm_compute. discriminate. Qed.

(** ** The grand total *)

(** C4: the total of one render is [calculateTotalAUM] of all the rows,
    whatever is selected: two renders of the same rows show the same
    total. *)
Theorem total_ignores_selection {num : Type} `{JSNumber num}
    (fundData : list (item num)) (s1 s2 : App.Selection) :
  App.totalAUM (App.derive fundData s1) = App.totalAUM (App.derive fundData s2) /\
  App.totalAUM (App.derive fundData s1) = calculateTotalAUM (Some fundData).
Proof. split; reflexivity. Qed.

(** ** Consistency of the selection *)

(** C5: in every state reached from the initial one by clicks on the two
    charts (the sub-fund chart being there only while a fund type is
    selected), a sub-fund is selected only while a fund type is; and a
    click on a fund type other than the selected one leaves no sub-fund
    selected. *)
Theorem selection_consistent (s : App.Selection) (x : string) :
  App.reachable s ->
  (App.selectedSubFund s <> None -> App.selectedFundType s <> None) /\
  (App.selectedFundType s <> Some x ->
   App.selectedFundType (App.selectFundType x s) = Some x /\
   App.selectedSubFund (App.selectFundType x s) = None).
Proof.
  intros Hs. split.
  - induction Hs as [|s s' _ IH Hstep]; [now simpl|].
    destruct Hstep as [z s|z s Hft].
    + unfold App.selectFundType, handleClick.
      destruct (same_item z (App.selectedFundType s)); simpl; congruence.
    + unfold App.selectSubFund, handleClick.
      destruct (same_item z (App.selectedSubFund s)); simpl; auto.
  - intros Hx. unfold App.selectFundType, handleClick.
    replace (same_item x (App.selectedFundType s)) with false; [now split|].
    symmetry. destruct s as [[t|] sub]; simpl in *; [|reflexivity].
    apply String.eqb_neq. congruence.
Qed.

Lemma selection_consistent_witness :
  let s := App.selectSubFund "A" (App.selectFundType "Equity" App.initial) in
  (App.selectedSubFund s <> None -> App.selectedFundType s <> None) /\
  (App.selectedFundType s <> Some "Fixed Income" ->
   App.selectedFundType (App.selectFundType "Fixed Income" s) =
     Some "Fixed Income" /\
   App.selectedSubFund (App.selectFundType "Fixed Income" s) = None).
Proof.
  apply (selection_consistent
           (App.selectSubFund "A" (App.selectFundType "Equity" App.initial))
           "Fixed Income").
  eapply App.reachable_step.
  - eapply App.reachable_step; [apply App.reachable_initial|].
    apply App.step_fund_type.
  - apply App.step_sub_fund. simpl. discriminate.
Defined.

(** ** Counting the rows *)

Section InheritedKeys.

Context {num : Type} `{JSNumber num}.

Lemma push_group_plain (k : string) (it : item num)
    (g : object (list (item num))) :
  plain_key k -> Forall plain_key (map fst g) ->
  Forall plain_key (map fst (push_group k it g)).
Proof.
  intros Hk Hg. rewrite push_group_keys.
  destruct (existsb (String.eqb k) (map fst g)); [exact Hg|].
  apply Forall_app. split; [exact Hg|]. now constructor.
Qed.

Lemma reduce_inherited (field : string) (data : list (item num))
    (g : object (list (item num))) :
  Forall plain_key (map fst g) ->
  Exists (fun k => inherited k = true) (keys_of field data) ->
  fold_left (fun groups it => bind groups (fun g => group_item field g it))
            data (Normal g) = Throw TypeError.
Proof.
  revert g. induction data as [|it data IH]; intros g Hg Hex; simpl in *.
  - inversion Hex.
  - destruct (inherited (key_of field it)) eqn:Hk.
    + rewrite group_item_throws; [apply reduce_throw| |exact Hk].
      apply own_property_None. intros Hin.
      apply (proj1 (Forall_forall _ _) Hg) in Hin.
      unfold plain_key in Hin. congruence.
    + rewrite group_item_normal by now right.
      apply IH.
      * now apply push_group_plain.
      * inversion Hex as [k ks Hhead|k ks Htail]; subst; [congruence|exact Htail].
Qed.

(** Whenever a group key names a member of [Object.prototype], grouping
    throws and no row is produced. *)
Lemma groupDataByField_inherited (field : string) (data : list (item num)) :
  Exists (fun k => inherited k = true) (keys_of field data) ->
  groupDataByField (Some data) field = Throw TypeError.
Proof.
  intros Hex. unfold groupDataByField.
  destruct data as [|it data]; [inversion Hex|].
  cbn [no_data elements]. apply reduce_inherited; [constructor|exact Hex].
Qed.

End InheritedKeys.

(** C6, the failing input: a fund type named constructor.  [groups[key]]
    finds [Object.prototype.constructor], so no array is stored under the
    key and the call of [push] throws; the two rows are not counted at
    all.  ([aggregateByField_count] is the claim on every other input.) *)
Theorem inherited_key_throws :
  groupDataByField (Some inherited_name) "FundType" = Throw TypeError /\
  aggregateByField (Some inherited_name) "FundType" "MV" = Throw TypeError /\
  forall rows,
    aggregateByField (Some inherited_name) "FundType" "MV" <> Normal rows.
Proof.
  assert (groupDataByField (Some inherited_name) "FundType" = Throw TypeError)
    as Hg.
  { apply groupDataByField_inherited.
    apply Exists_cons_tl, Exists_cons_hd. reflexivity. }
  assert (aggregateByField (Some inherited_name) "FundType" "MV" =
          Throw TypeError) as Ha.
  { unfold aggregateByField. cbn [no_data inherited_name]. fold inherited_name.
    now rewrite Hg. }
  split; [exact Hg|split; [exact Ha|]].
  intros rows. rewrite Ha. discriminate.
Qed.

(** ** The total of the groups *)

(** C7, counterexample: on the doubles 0.1, 0.2 and 0.4 the groups sum to
    0.5 and 0.2, whose sum is 0.7, while the total is
    (0.1 + 0.2) + 0.4 = 0.7000000000000001. *)
Lemma rounding_breaks_total :
  exists rows,
    aggregateByField (Some rounding_sample) "FundType" "MV" = Normal rows /\
    ToString (App.rows_total rows) = "0.7" /\
    ToString (calculateTotalAUM (Some rounding_sample)) = "0.7000000000000001" /\
    strict_eq (App.rows_total rows) (calculateTotalAUM (Some rounding_sample))
      = false /\
    App.rows_total rows <> calculateTotalAUM (Some rounding_sample).
Proof.
  eexists. split; [vm_compute; reflexivity|].
  repeat split; try (vm_compute; reflexivity).
  intros Heq. apply (f_equal ToString) in Heq.
  vm_compute in Heq. discriminate Heq.
Qed.

(** C7, amended: for doubles that are integers (a missing or falsy cell
    counting as 0) whose absolute values add up to less than 2^53, with
    MV as the value field, a group field that is neither MV nor count nor
    a member of [Object.prototype], group keys that name none of its
    members and no market value holding non-empty text, the sums of the
    aggregated rows add up to the grand total of the same rows ([units]
    names the integer of a row). *)
Theorem aggregate_preserves_total (units : item float -> Z)
    (data : list (item float)) (groupField : string) :
  row_fields groupField "MV" ->
  Forall plain_key (keys_of groupField data) ->
  Forall (fun it => no_text (get it "MV")) data ->
  Forall (fun it => amount "MV" it = Integral.of_Z (units it)) data ->
  (zsum (map (fun it => Z.abs (units it)) data) < 2 ^ 53)%Z ->
  exists rows,
    aggregateByField (Some data) groupField "MV" = Normal rows /\
    App.rows_total rows = calculateTotalAUM (Some data).
Proof.
  intros _ Hplain Htext Hunits Hbound.
  destruct (integral_totals_agree units data groupField Hplain Htext Hunits
              Hbound) as (rows & Hagg & Hsum & Hall).
  exists rows. split; [exact Hagg|].
  rewrite Hsum. unfold calculateTotalAUM.
  destruct data as [|it data]; [reflexivity|].
  cbn [no_data elements]. now rewrite Hall.
Qed.

Lemma aggregate_preserves_total_witness :
  exists rows,
    aggregateByField (Some double_records) "FundType" "MV" = Normal rows /\
    App.rows_total rows = calculateTotalAUM (Some double_records).
Proof.
  apply (aggregate_preserves_total units double_records "FundType").
  - repeat split; try reflexivity; discriminate.
  - repeat constructor.
  - repeat constructor.
  - repeat (apply Forall_cons; [vm_compute; reflexivity|]). apply Forall_nil.
  - vm_compute. reflexivity.
Defined.

(** ** Empty and absent input *)

(** C8: on an empty array, and on [undefined] or [null] in place of the
    array, the total is 0, the groups are the empty object and the
    aggregated rows the empty array; nothing is thrown. *)
Theorem empty_input {num : Type} `{JSNumber num}
    (field groupField valueField : string) :
  calculateTotalAUM (Some (@nil (item num))) = VNum nzero /\
  calculateTotalAUM (@None (list (item num))) = VNum nzero /\
  groupDataByField (Some (@nil (item num))) field = Normal [] /\
  groupDataByField (@None (list (item num))) field = Normal [] /\
  aggregateByField (Some (@nil (item num))) groupField valueField = Normal [] /\
  aggregateByField (@None (list (item num))) groupField valueField = Normal [].
Proof. repeat split. Qed.

(** ** The detail rows *)



(** ** Group keys are strings *)






(** The two examples of C10, evaluated: the values differ under [===],
    and a single row of count 2 comes out. *)
Lemma coerced_keys_examples :
  strict_eq (get (nth 0 number_and_text []) "FundType")
            (get (nth 1 number_and_text []) "FundType") = false /\
  aggregateByField (Some number_and_text) "FundType" "MV" =
    Normal [ {| row_key := "1"; row_sum := VNum (Exact.Int 15);
                row_count := 2 |} ] /\
  strict_eq (get (nth 0 missing_and_text []) "FundType")
            (get (nth 1 missing_and_text []) "FundType") = false /\
  aggregateByField (Some missing_and_text) "FundType" "MV" =
    Normal [ {| row_key := "undefined"; row_sum := VNum (Exact.Int 15);
                row_count := 2 |} ].
Proof. repeat split. Qed.

(** * Further properties of the code *)

(** ** Grouping *)

Section GroupingProperties.

Context {num : Type} `{JSNumber num}.
Implicit Types (data : list (item num)) (field k : string).

Lemma plain_or_inherited (keys : list string) :
  Forall plain_key keys \/ Exists (fun k => inherited k = true) keys.
Proof.
  induction keys as [|k keys [IH|IH]].
  - left. constructor.
  - destruct (inherited k) eqn:Hk.
    + right. now apply Exists_cons_hd.
    + left. now constructor.
  - right. now apply Exists_cons_tl.
Qed.

Lemma inherited_not_plain (keys : list string) :
  Exists (fun k => inherited k = true) keys -> ~ Forall plain_key keys.
Proof.
  intros Hex Hall. apply Exists_exists in Hex as (k & Hin & Hk).
  apply (proj1 (Forall_forall _ _) Hall) in Hin.
  unfold plain_key in Hin. congruence.
Qed.

Lemma aggregateByField_inherited data groupField valueField :
  Exists (fun k => inherited k = true) (keys_of groupField data) ->
  aggregateByField (Some data) groupField valueField = Throw TypeError.
Proof.
  intros Hex. unfold aggregateByField.
  destruct data as [|it data]; [inversion Hex|].
  cbn [no_data]. now rewrite groupDataByField_inherited.
Qed.

(** X1: grouping and aggregation throw exactly when the value of the
    group field of some row reads as the name of a member of
    [Object.prototype]; otherwise they return. *)
Theorem throws_exactly_on_inherited_keys data groupField valueField :
  (groupDataByField (Some data) groupField = Throw TypeError <->
   Exists (fun k => inherited k = true) (keys_of groupField data)) /\
  (aggregateByField (Some data) groupField valueField = Throw TypeError <->
   Exists (fun k => inherited k = true) (keys_of groupField data)) /\
  ((exists rows,
      aggregateByField (Some data) groupField valueField = Normal rows) <->
   Forall plain_key (keys_of groupField data)).
Proof.
  destruct (plain_or_inherited (keys_of groupField data)) as [Hall|Hex].
  - assert (~ Exists (fun k => inherited k = true) (keys_of groupField data))
      as Hno by (intros Hex; now apply inherited_not_plain in Hex).
    rewrite groupDataByField_plain, aggregateByField_plain by exact Hall.
    repeat split; try discriminate; try (intros Hex; now elim Hno); auto.
    intros _. eexists. reflexivity.
  - rewrite groupDataByField_inherited, aggregateByField_inherited by exact Hex.
    repeat split; auto.
    + intros [rows Hrows]. discriminate.
    + intros Hall. now apply inherited_not_plain in Hex.
Qed.

Lemma In_own_property {A : Type} (o : object A) k (a : A) :
  NoDup (map fst o) -> In (k, a) o -> own_property k o = Some a.
Proof.
  induction o as [|[k' b] o IH]; simpl; [intros _ []|].
  intros Hnd Hin. inversion Hnd as [|x xs Hnotin Hrest]; subst.
  destruct Hin as [[= -> ->]|Hin].
  - now rewrite String.eqb_refl.
  - destruct (String.eqb_spec k' k) as [->|_].
    + elim Hnotin. now apply (in_map fst) in Hin.
    + now apply IH.
Qed.

(** The rows of a key, in their order in the input. *)
Lemma grouped_entry field data k (items : list (item num)) :
  In (k, items) (grouped field data []) ->
  items = filter (fun it => String.eqb (key_of field it) k) data /\
  In k (keys_of field data).
Proof.
  intros Hin.
  assert (In k (keys_of field data)) as Hk.
  { apply first_occurrences_In. rewrite <- grouped_keys.
    now apply (in_map fst) in Hin. }
  split; [|exact Hk].
  apply In_own_property in Hin.
  - rewrite grouped_own in Hin. simpl in Hin.
    destruct (filter _ data); [discriminate|]. now injection Hin.
  - rewrite grouped_keys. apply first_occurrences_NoDup.
Qed.

(** X2: for a group field that [Object.prototype] does not define and on
    keys that it does not define, grouping is a stable partition: the
    array stored under a key holds exactly the rows whose group field
    reads as that key, in their input order, and a key that no row has is
    not a property of the result. *)
Theorem groups_are_stable_partition data field k :
  plain_key field ->
  Forall plain_key (keys_of field data) ->
  exists groups,
    groupDataByField (Some data) field = Normal groups /\
    own_property k groups =
      match filter (fun it => String.eqb (key_of field it) k) data with
      | [] => None
      | rows => Some rows
      end /\
    Permutation (flat_map snd groups) data.
Proof.
  intros _ Hplain. exists (grouped field data []).
  split; [now apply groupDataByField_plain|].
  split; [now rewrite grouped_own|].
  apply (grouped_members field data []).
Qed.

End GroupingProperties.

Lemma groups_are_stable_partition_witness :
  exists groups,
    groupDataByField (Some sample_records) "FundType" = Normal groups /\
    own_property "Equity" groups =
      match filter (fun it => String.eqb (key_of "FundType" it) "Equity")
                   sample_records with
      | [] => None
      | rows => Some rows
      end /\
    Permutation (flat_map snd groups) sample_records.
Proof.
  apply (groups_are_stable_partition sample_records "FundType" "Equity").
  - reflexivity.
  - repeat constructor.
Defined.

(** ** Aggregation *)

Section AggregationProperties.

Context {num : Type} `{JSNumber num}.
Implicit Types (data : list (item num)) (groupField valueField k : string).

(** The row that [aggregateByField] builds for a key. *)
Lemma aggregated_rows data groupField valueField :
  map (aggregate_entry valueField)
      (Object_entries (grouped groupField data [])) =
  map (fun k =>
         aggregate_entry valueField
           (k, filter (fun it => String.eqb (key_of groupField it) k) data))
      (entries_order (first_occurrences (keys_of groupField data))).
Proof.
  rewrite <- grouped_keys, <- Object_entries_keys, map_map.
  apply map_ext_in. intros [k items] Hin. simpl.
  apply (Permutation_in _ (Object_entries_perm _)) in Hin.
  apply grouped_entry in Hin as [-> _]. reflexivity.
Qed.

(** X3: on keys that [Object.prototype] does not define, the counts of
    the aggregated rows add up to the number of input rows. *)
Theorem counts_add_up data groupField valueField :
  Forall plain_key (keys_of groupField data) ->
  exists rows,
    aggregateByField (Some data) groupField valueField = Normal rows /\
    list_sum (map (@row_count _) rows) = List.length data.
Proof.
  intros Hplain.
  destruct (@aggregateByField_count _ _ data groupField valueField Hplain)
    as (rows & Hrows & Hn).
  exists rows. split; [exact Hrows|exact Hn].
Qed.

(** X4: for a group field and a value field that are two different
    names, neither of them count nor a member of [Object.prototype], and
    on keys that [Object.prototype] does not define, the result of
    [aggregateByField] is one row per distinct key, in the order of
    [Object.entries]; the row of a key carries the sum of the value field
    over the rows of that key, taken in input order, and their number. *)
Theorem aggregate_rows_characterised data groupField valueField :
  row_fields groupField valueField ->
  Forall plain_key (keys_of groupField data) ->
  aggregateByField (Some data) groupField valueField =
  Normal
    (map (fun k =>
            let items :=
              filter (fun it => String.eqb (key_of groupField it) k) data in
            {| row_key := k;
               row_sum := fold_left (add_field valueField) items (VNum nzero);
               row_count := List.length items |})
         (entries_order (first_occurrences (keys_of groupField data)))).
Proof.
  intros _ Hplain. rewrite aggregateByField_plain by exact Hplain.
  f_equal. apply aggregated_rows.
Qed.

(** X5: for a group field and a value field that are two different
    names, neither of them count nor a member of [Object.prototype], and
    on keys that [Object.prototype] does not define, the aggregated rows
    have distinct keys, each the key of at least one input row (no group
    is empty), and there is no row at all only for an empty input. *)
Theorem rows_are_distinct_and_inhabited data groupField valueField :
  row_fields groupField valueField ->
  Forall plain_key (keys_of groupField data) ->
  exists rows,
    aggregateByField (Some data) groupField valueField = Normal rows /\
    NoDup (map (@row_key _) rows) /\
    Forall (fun row => In (row_key row) (keys_of groupField data) /\
                       1 <= row_count row) rows /\
    (rows = [] <-> data = []).
Proof.
  intros _ Hplain. eexists.
  split; [now apply aggregateByField_plain|].
  rewrite aggregated_rows.
  set (order := entries_order (first_occurrences (keys_of groupField data))).
  assert (Permutation order (first_occurrences (keys_of groupField data)))
    as Hperm by apply entries_order_perm.
  split; [|split].
  - rewrite map_map. simpl. rewrite map_id.
    apply (Permutation_NoDup (Permutation_sym Hperm)).
    apply first_occurrences_NoDup.
  - apply Forall_forall. intros row Hrow.
    apply in_map_iff in Hrow as (k & <- & Hk). simpl.
    apply (Permutation_in _ Hperm) in Hk.
    apply (proj1 (first_occurrences_In _ _)) in Hk.
    split; [exact Hk|].
    apply in_map_iff in Hk as (it & Hit & Hin).
    assert (In it (filter (fun it => String.eqb (key_of groupField it) k)
                          data)) as Hmem.
    { apply filter_In. split; [exact Hin|]. rewrite Hit.
      apply String.eqb_refl. }
    destruct (filter _ data); [destruct Hmem|simpl; apply le_n_S, Nat.le_0_l].
  - split.
    + intros Hnil. apply map_eq_nil in Hnil.
      rewrite Hnil in Hperm. apply Permutation_nil in Hperm.
      destruct data as [|it data]; [reflexivity|discriminate Hperm].
    + intros ->. reflexivity.
Qed.

Lemma text_is_a_string_total data :
  Exists (fun it => ~ no_text (get it "MV")) data ->
  exists s, calculateTotalAUM (Some data) = VStr s.
Proof.
  intros Hex. unfold calculateTotalAUM.
  destruct data as [|it data]; [inversion Hex|].
  cbn [no_data elements]. now apply sum_with_text.
Qed.

(** X6: one market value cell holding non-empty text makes the total a
    string, whatever the other cells hold. *)
Theorem text_makes_the_total_a_string data :
  Exists (fun it => ~ no_text (get it "MV")) data ->
  exists s, calculateTotalAUM (Some data) = VStr s.
Proof. apply text_is_a_string_total. Qed.

End AggregationProperties.

Lemma counts_add_up_witness :
  exists rows,
    aggregateByField (Some sample_records) "FundType" "MV" = Normal rows /\
    list_sum (map (@row_count _) rows) = List.length sample_records.
Proof.
  apply (counts_add_up sample_records "FundType" "MV"). repeat constructor.
Defined.

Lemma aggregate_rows_characterised_witness :
  aggregateByField (Some numbered_funds) "Fund" "MV" =
  Normal
    (map (fun k =>
            let items :=
              filter (fun it => String.eqb (key_of "Fund" it) k)
                     numbered_funds in
            {| row_key := k;
               row_sum := fold_left (add_field "MV") items (VNum nzero);
               row_count := List.length items |})
         (entries_order (first_occurrences (keys_of "Fund" numbered_funds)))).
Proof.
  apply (aggregate_rows_characterised numbered_funds "Fund" "MV").
  - repeat split; try reflexivity; discriminate.
  - repeat constructor.
Defined.

Lemma rows_are_distinct_and_inhabited_witness :
  exists rows,
    aggregateByField (Some sample_records) "Fund" "MV" = Normal rows /\
    NoDup (map (@row_key _) rows) /\
    Forall (fun row => In (row_key row) (keys_of "Fund" sample_records) /\
                       1 <= row_count row) rows /\
    (rows = [] <-> sample_records = []).
Proof.
  apply (rows_are_distinct_and_inhabited sample_records "Fund" "MV").
  - repeat split; try reflexivity; discriminate.
  - repeat constructor.
Defined.

Lemma text_makes_the_total_a_string_witness :
  exists s, calculateTotalAUM (Some text_cell) = VStr s.
Proof.
  apply (text_makes_the_total_a_string text_cell).
  apply Exists_cons_tl, Exists_cons_hd. simpl. discriminate.
Defined.

(** ** Sums of numbers *)

(** X20: when every value of the field is a number or falsy (missing,
    null, false, the empty string), the sum is the number obtained by
    adding, from 0 and in order, each number that is not falsy, a falsy
    value (0 and NaN included) counting as 0; this holds for the total of
    the market values and for the sum, over the rows of a group, of any
    field other than count that [Object.prototype] does not define. *)
Theorem sum_of_numbers {num : Type} `{JSNumber num}
    (data : option (list (item num))) (valueField key : string)
    (items : list (item num)) :
  plain_key valueField -> valueField <> "count" ->
  Forall (fun it => number_or_falsy (get it "MV")) (elements data) ->
  Forall (fun it => number_or_falsy (get it valueField)) items ->
  calculateTotalAUM data =
    VNum (nsum (map (fun it => contribution (get it "MV")) (elements data))) /\
  row_sum (aggregate_entry valueField (key, items)) =
    VNum (nsum (map (fun it => contribution (get it valueField)) items)).
Proof.
  assert (forall field l,
            Forall (fun it => number_or_falsy (get it field)) l ->
            fold_left (add_field field) l (VNum nzero) =
            VNum (nsum (map (fun it => contribution (get it field)) l)))
    as Hsum.
  { intros field l Hl. rewrite sum_numbers.
    - unfold nsum. do 2 f_equal. apply map_ext_in. intros it Hin.
      apply amount_contribution.
      now apply (proj1 (Forall_forall _ _) Hl).
    - eapply Forall_impl; [|exact Hl].
      intros it. apply number_or_falsy_no_text. }
  intros _ _ Hdata Hitems. split.
  - unfold calculateTotalAUM.
    destruct data as [[|it l]|]; try reflexivity.
    cbn [no_data]. now apply Hsum.
  - simpl. now apply Hsum.
Qed.

Lemma sum_of_numbers_witness :
  calculateTotalAUM (Some sample_records) =
    VNum (nsum (map (fun it => contribution (get it "MV"))
                    (elements (Some sample_records)))) /\
  row_sum (aggregate_entry "Equity" ("Equity", sample_records)) =
    VNum (nsum (map (fun it => contribution (get it "Equity")) sample_records)).
Proof.
  apply (sum_of_numbers (Some sample_records) "Equity" "Equity"
           sample_records);
    [reflexivity|discriminate|repeat constructor..].
Defined.

(** ** The two charts *)

Section DrillDown.

Context {num : Type} `{JSNumber num}.
Implicit Types (fundData : list (item num)) (t : string).

Lemma filter_by_fund_type fundData t :
  Forall (fun it => is_text (get it "FundType")) fundData ->
  filter (App.matches "FundType" (Some t)) fundData =
  filter (fun it => String.eqb (key_of "FundType" it) t) fundData.
Proof.
  intros Htext. apply filter_ext_in. intros it Hin.
  apply (proj1 (Forall_forall _ _) Htext) in Hin as [s Hs].
  unfold App.matches, key_of, ToPropertyKey. now rewrite Hs.
Qed.

Lemma plain_keys_filter (f : item num -> bool) field fundData :
  Forall plain_key (keys_of field fundData) ->
  Forall plain_key (keys_of field (filter f fundData)).
Proof.
  unfold keys_of. rewrite !Forall_map. intros Hall.
  apply Forall_forall. intros it Hin. apply filter_In in Hin as [Hin _].
  now apply (proj1 (Forall_forall _ _) Hall).
Qed.

Lemma selected_row fundData t valueField :
  In t (keys_of "FundType" fundData) ->
  In (aggregate_entry valueField
        (t, filter (fun it => String.eqb (key_of "FundType" it) t) fundData))
     (map (aggregate_entry valueField)
          (Object_entries (grouped "FundType" fundData []))).
Proof.
  intros Hin. rewrite aggregated_rows.
  apply (in_map (fun k => aggregate_entry valueField
                            (k, filter (fun it => String.eqb
                                                    (key_of "FundType" it) k)
                                       fundData))).
  apply (Permutation_in _ (Permutation_sym (entries_order_perm _))).
  now apply first_occurrences_In.
Qed.


End DrillDown.

(** X9: for doubles that are integers, those of the rows of the selected
    fund type t having absolute values that add up to less than 2^53,
    with fund types held as text and no market value holding non-empty
    text, the total in the title of the sub-fund chart is the value of
    the segment t of the main chart ([units] names the integer of a
    row). *)
Theorem sub_fund_total_matches (units : item float -> Z)
    (fundData : list (item float)) (s : App.Selection) (t : string) :
  App.selectedFundType s = Some t -> t <> "" ->
  In t (keys_of "FundType" fundData) ->
  Forall (fun it => is_text (get it "FundType")) fundData ->
  Forall plain_key (keys_of "FundType" fundData) ->
  Forall plain_key (keys_of "Fund" fundData) ->
  Forall (fun it => no_text (get it "MV")) fundData ->
  Forall (fun it => amount "MV" it = Integral.of_Z (units it)) fundData ->
  (zsum (map (fun it => Z.abs (units it))
             (filter (fun it => String.eqb (key_of "FundType" it) t)
                     fundData)) < 2 ^ 53)%Z ->
  exists main sub row,
    App.fundTypeData (App.derive fundData s) = Normal main /\
    App.subFundData (App.derive fundData s) = Normal sub /\
    In row main /\ row_key row = t /\
    App.rows_total sub = row_sum row.
Proof.
  intros Hsel Ht Hin Htext Hplain Hfund Hmv Hunits Hbound.
  set (mine := filter (fun it => String.eqb (key_of "FundType" it) t) fundData)
    in *.
  assert (forall P : item float -> Prop, Forall P fundData -> Forall P mine)
    as Hsub.
  { intros P HP. apply Forall_forall. intros it Hit.
    apply filter_In in Hit as [Hit _].
    now apply (proj1 (Forall_forall _ _) HP). }
  destruct (integral_totals_agree units mine "Fund"
              (plain_keys_filter _ "Fund" fundData Hfund)
              (Hsub _ Hmv) (Hsub _ Hunits) Hbound)
    as (sub & Hagg & Hsum & Hall).
  exists (map (aggregate_entry "MV")
              (Object_entries (grouped "FundType" fundData []))).
  exists sub, (aggregate_entry "MV" (t, mine)).
  split; [now apply aggregateByField_plain|].
  split.
  - cbn [App.derive App.subFundData]. rewrite Hsel. cbn [App.selected].
    apply String.eqb_neq in Ht. rewrite Ht. cbn [negb].
    rewrite filter_by_fund_type by exact Htext. exact Hagg.
  - split; [now apply selected_row|]. split; [reflexivity|].
    rewrite Hsum. cbn [aggregate_entry row_sum]. now rewrite Hall.
Qed.

(** ** The pie chart *)

Section ChartProperties.

Context {num : Type} `{JSNumber num}.

Lemma colors_nth (data : list (AggregateRow num)) (colorOffset i : nat) :
  i < List.length data ->
  nth_error (PieChart.colors data colorOffset) i =
  Some (nth_error PieChart.CHART_COLORS
                  ((i + colorOffset) mod List.length PieChart.CHART_COLORS)).
Proof.
  intros Hi. unfold PieChart.colors.
  rewrite nth_error_map, nth_error_seq.
  destruct (Nat.ltb_spec i (List.length data)) as [_|Hge]; [reflexivity|lia].
Qed.

Lemma palette_distinct : NoDup PieChart.CHART_COLORS.
Proof.
  unfold PieChart.CHART_COLORS.
  repeat (constructor; [simpl; intuition discriminate|]). constructor.
Qed.

Lemma mod_shift (i j c : nat) :
  (i + c) mod 9 = (j + c) mod 9 <-> i mod 9 = j mod 9.
Proof.
  pose proof (Nat.div_mod_eq i 9). pose proof (Nat.div_mod_eq j 9).
  pose proof (Nat.div_mod_eq (i + c) 9). pose proof (Nat.div_mod_eq (j + c) 9).
  pose proof (Nat.mod_upper_bound i 9). pose proof (Nat.mod_upper_bound j 9).
  pose proof (Nat.mod_upper_bound (i + c) 9).
  pose proof (Nat.mod_upper_bound (j + c) 9).
  lia.
Qed.

(** X10: every segment gets a colour of the palette, segment i the
    colour number (i + colorOffset) mod 9, so that two segments of a
    chart have the same colour exactly when their positions differ by a
    multiple of 9. *)
Theorem colours_cycle (data : list (AggregateRow num))
    (colorOffset i j : nat) :
  i < List.length data -> j < List.length data ->
  (exists c, nth_error (PieChart.colors data colorOffset) i = Some (Some c) /\
             In c PieChart.CHART_COLORS) /\
  (nth_error (PieChart.colors data colorOffset) i =
   nth_error (PieChart.colors data colorOffset) j <-> i mod 9 = j mod 9).
Proof.
  intros Hi Hj. rewrite !colors_nth by assumption.
  change (List.length PieChart.CHART_COLORS) with 9.
  rewrite <- (mod_shift i j colorOffset).
  assert ((i + colorOffset) mod 9 < 9) as Hbi by (apply Nat.mod_upper_bound; lia).
  assert ((j + colorOffset) mod 9 < 9) as Hbj by (apply Nat.mod_upper_bound; lia).
  remember ((i + colorOffset) mod 9) as a eqn:Ea.
  remember ((j + colorOffset) mod 9) as b eqn:Eb.
  clear Ea Eb. split.
  - destruct (nth_error PieChart.CHART_COLORS a) as [c|] eqn:Hc.
    + exists c. split; [reflexivity|]. now apply nth_error_In in Hc.
    + apply nth_error_None in Hc.
      change (List.length PieChart.CHART_COLORS) with 9 in Hc. lia.
  - split.
    + intros [= Heq].
      now apply (proj1 (NoDup_nth_error _) palette_distinct) in Heq.
    + now intros ->.
Qed.

Lemma offset_count (labels : list string) (x : string) :
  NoDup labels ->
  count_occ Nat.eq_dec
    (map (fun label => if same_item label (Some x) then 20 else 0) labels) 20 =
  if existsb (String.eqb x) labels then 1 else 0.
Proof.
  induction labels as [|l labels IH]; [reflexivity|].
  intros Hnd. inversion Hnd as [|y ys Hnotin Hrest]; subst.
  cbn [map existsb].
  change (same_item l (Some x)) with (String.eqb l x).
  rewrite (String.eqb_sym x l).
  destruct (String.eqb_spec l x) as [->|Hne]; cbn [orb].
  - rewrite count_occ_cons_eq by reflexivity.
    rewrite (IH Hrest).
    replace (existsb (String.eqb x) labels) with false; [reflexivity|].
    symmetry. apply not_true_is_false. intros Hex.
    apply existsb_exists in Hex as (y & Hy & Heq).
    apply String.eqb_eq in Heq. subst y. contradiction.
  - rewrite count_occ_cons_neq by discriminate. now apply IH.
Qed.

Lemma existsb_perm (f : string -> bool) (l l' : list string) :
  Permutation l l' -> existsb f l = existsb f l'.
Proof.
  intros Hp. destruct (existsb f l') eqn:E.
  - apply existsb_exists in E as (y & Hy & Hf).
    apply existsb_exists. exists y. split; [|exact Hf].
    now apply (Permutation_in _ (Permutation_sym Hp)).
  - apply not_true_is_false. intros Hex.
    apply existsb_exists in Hex as (y & Hy & Hf).
    assert (existsb f l' = true) as Ht; [|congruence].
    apply existsb_exists. exists y. split; [|exact Hf].
    now apply (Permutation_in _ Hp).
Qed.

Lemma existsb_first_occurrences (f : string -> bool) (l : list string) :
  existsb f (first_occurrences l) = existsb f l.
Proof.
  destruct (existsb f l) eqn:E.
  - apply existsb_exists in E as (y & Hy & Hf).
    apply existsb_exists. exists y. split; [|exact Hf].
    now apply first_occurrences_In.
  - apply not_true_is_false. intros Hex.
    apply existsb_exists in Hex as (y & Hy & Hf).
    assert (existsb f l = true) as Ht; [|congruence].
    apply existsb_exists. exists y. split; [|exact Hf].
    now apply (proj1 (first_occurrences_In _ _)).
Qed.

(** X11: in a chart of the rows aggregated by a group field and a value
    field that are two different names, neither of them count nor a member
    of [Object.prototype], with the group field as the name key, at most
    one segment is pulled out: the one whose label is the selected item,
    when a row has that label, and none otherwise; after a click on a
    segment that was not selected it is that segment, after a click on the
    selected one it is none. *)
Theorem one_segment_highlighted (data : list (item num))
    (groupField valueField x : string) (s : App.Selection) :
  row_fields groupField valueField ->
  Forall plain_key (keys_of groupField data) ->
  exists rows,
    aggregateByField (Some data) groupField valueField = Normal rows /\
    count_occ Nat.eq_dec (PieChart.offset rows (Some x)) 20 =
      (if existsb (String.eqb x) (keys_of groupField data) then 1 else 0) /\
    PieChart.offset rows None = repeat 0 (List.length rows) /\
    count_occ Nat.eq_dec
      (PieChart.offset rows (App.selectedFundType (App.selectFundType x s)))
      20 =
      (if (same_item x (App.selectedFundType s)
           || negb (existsb (String.eqb x) (keys_of groupField data)))%bool
       then 0 else 1).
Proof.
  intros _ Hplain. eexists. split; [now apply aggregateByField_plain|].
  set (rows := map (aggregate_entry valueField)
                   (Object_entries (grouped groupField data []))).
  assert (PieChart.labels rows =
          entries_order (first_occurrences (keys_of groupField data)))
    as Hlabels.
  { unfold PieChart.labels, rows.
    now rewrite aggregate_entry_key, Object_entries_keys, grouped_keys. }
  assert (count_occ Nat.eq_dec (PieChart.offset rows (Some x)) 20 =
          if existsb (String.eqb x) (keys_of groupField data) then 1 else 0)
    as Hone.
  { unfold PieChart.offset. rewrite offset_count.
    - rewrite Hlabels, (existsb_perm _ _ _ (entries_order_perm _)).
      now rewrite existsb_first_occurrences.
    - rewrite Hlabels.
      apply (Permutation_NoDup (Permutation_sym (entries_order_perm _))).
      apply first_occurrences_NoDup. }
  assert (PieChart.offset rows None = repeat 0 (List.length rows)) as Hnone.
  { unfold PieChart.offset, PieChart.labels. rewrite map_map. simpl.
    clear. induction rows as [|r rows IH]; simpl; [reflexivity|].
    now rewrite IH. }
  split; [exact Hone|]. split; [exact Hnone|].
  unfold App.selectFundType, handleClick.
  destruct (same_item x (App.selectedFundType s)); simpl.
  - rewrite Hnone. clear. induction (List.length rows); simpl; auto.
  - rewrite Hone.
    now destruct (existsb (String.eqb x) (keys_of groupField data)).
Qed.

End ChartProperties.

Lemma colours_cycle_witness :
  (exists c,
     nth_error (PieChart.colors
                  (map (aggregate_entry "MV")
                       [("A", sample_records); ("B", sample_records)]) 3) 0 =
       Some (Some c) /\
     In c PieChart.CHART_COLORS) /\
  (nth_error (PieChart.colors
                (map (aggregate_entry "MV")
                     [("A", sample_records); ("B", sample_records)]) 3) 0 =
   nth_error (PieChart.colors
                (map (aggregate_entry "MV")
                     [("A", sample_records); ("B", sample_records)]) 3) 1 <->
   0 mod 9 = 1 mod 9).
Proof.
  apply (colours_cycle
           (map (aggregate_entry "MV")
                [("A", sample_records); ("B", sample_records)]) 3 0 1);
    simpl; lia.
Defined.

Lemma one_segment_highlighted_witness :
  exists rows,
    aggregateByField (Some sample_records) "FundType" "MV" = Normal rows /\
    count_occ Nat.eq_dec (PieChart.offset rows (Some "Equity")) 20 =
      (if existsb (String.eqb "Equity") (keys_of "FundType" sample_records)
       then 1 else 0) /\
    PieChart.offset rows None = repeat 0 (List.length rows) /\
    count_occ Nat.eq_dec
      (PieChart.offset rows
         (App.selectedFundType (App.selectFundType "Equity" App.initial)))
      20 =
      (if (same_item "Equity" (App.selectedFundType App.initial)
           || negb (existsb (String.eqb "Equity")
                            (keys_of "FundType" sample_records)))%bool
       then 0 else 1).
Proof.
  apply (one_segment_highlighted sample_records "FundType" "MV" "Equity"
           App.initial).
  - repeat split; try reflexivity; discriminate.
  - repeat constructor.
Defined.

(** ** The detail table *)

Section DetailProperties.

Context {num : Type} `{JSNumber num} `{JSNumberFormat num}.
Implicit Types (data : list (item num)) (it : item num).

Lemma only_TypeError (e : error) : e = TypeError.
Proof. now destruct e. Qed.

Lemma toFixed_number (v : value num) (f : nat) :
  is_number v -> toFixed v f = Normal (nto_fixed (spec_contribution v) f).
Proof. destruct v; simpl; intros Hv; now try (elim Hv). Qed.

Lemma toFixed_throws (v : value num) (f : nat) :
  ~ is_number v -> toFixed v f = Throw TypeError.
Proof. destruct v; simpl; intros Hv; try reflexivity. now elim Hv. Qed.

Lemma is_number_dec (v : value num) : {is_number v} + {~ is_number v}.
Proof. destruct v; simpl; auto. Qed.

Lemma map_completion_normal {A B : Type} (f : A -> completion B)
    (g : A -> B) (l : list A) :
  Forall (fun a => f a = Normal (g a)) l ->
  map_completion f l = Normal (map g l).
Proof.
  induction 1 as [|a l Ha _ IH]; simpl; [reflexivity|].
  now rewrite Ha, IH.
Qed.

Lemma map_completion_throws {A B : Type} (f : A -> completion B)
    (l : list A) :
  Exists (fun a => f a = Throw TypeError) l ->
  map_completion f l = Throw TypeError.
Proof.
  induction 1 as [a l Ha|a l _ IH]; simpl.
  - now rewrite Ha.
  - rewrite IH. destruct (f a) as [b|e]; simpl; [reflexivity|].
    now rewrite (only_TypeError e).
Qed.

Lemma render_line_numeric it :
  numeric_row it -> FundDetails.render_line it = Normal (detail_line it).
Proof.
  intros [Hmv Heq]. unfold FundDetails.render_line.
  now rewrite (toFixed_number _ 2 Hmv), (toFixed_number _ 2 Heq).
Qed.

Lemma render_line_throws it :
  ~ numeric_row it -> FundDetails.render_line it = Throw TypeError.
Proof.
  intros Hn. unfold FundDetails.render_line.
  destruct (is_number_dec (get it "MV")) as [Hmv|Hmv].
  - rewrite (toFixed_number _ 2 Hmv). simpl.
    rewrite toFixed_throws; [reflexivity|].
    intros Heq. apply Hn. now split.
  - now rewrite toFixed_throws.
Qed.

Lemma sum_of_number_cells (field : string) data :
  Forall (fun it => is_number (get it field)) data ->
  fold_left (add_field field) data (VNum nzero) =
  VNum (nsum (map (fun it => contribution (get it field)) data)).
Proof.
  intros Hall. rewrite sum_numbers.
  - unfold nsum. do 2 f_equal. apply map_ext_in. intros it Hin.
    apply amount_contribution.
    apply (proj1 (Forall_forall _ _) Hall) in Hin. cbv beta in Hin.
    destruct (get it field); simpl in *; tauto.
  - eapply Forall_impl; [|exact Hall].
    intros it Hit. cbv beta in Hit.
    destruct (get it field); simpl in *; tauto.
Qed.

(** X12: the detail table fails as soon as one of its rows has a market
    value or an equity that is not a number, a missing cell included
    (which the totals of the same table count as 0). *)
Theorem details_need_numbers data (fundName : option string) :
  App.selected fundName = true ->
  Exists (fun it => ~ numeric_row it) data ->
  FundDetails.render (Some data) fundName = Throw TypeError.
Proof.
  intros Hname Hbad. unfold FundDetails.render. rewrite Hname.
  destruct data as [|it0 data0] eqn:Edata; [inversion Hbad|].
  rewrite <- Edata in *. clear Edata.
  replace (no_data (Some data)) with false
    by (destruct data; [inversion Hbad|reflexivity]).
  cbn [orb negb elements].
  rewrite (map_completion_throws FundDetails.render_line data).
  - destruct (toFixed (FundDetails.totalMV data) 1) as [nav|e]; simpl;
      [reflexivity|now rewrite (only_TypeError e)].
  - apply Exists_exists in Hbad as (it & Hin & Hit).
    apply Exists_exists. exists it. split; [exact Hin|].
    now apply render_line_throws.
Qed.

(** X13: for a selected fund and rows that all hold numbers, the table
    has one line per row, in order, with the two amounts to two decimals,
    and its title and total line carry the sums of the two columns (a
    cell holding 0 or NaN counting as 0). *)
Theorem details_table data (name : string) :
  name <> "" -> data <> [] -> Forall numeric_row data ->
  FundDetails.render (Some data) (Some name) =
  Normal
    (Some
       {| FundDetails.title :=
            String.append "Fund "
              (String.append name
                 (String.append " ($"
                    (String.append
                       (nto_fixed
                          (nsum (map (fun it => contribution (get it "MV"))
                                     data)) 1)
                       "MM NAV)")));
          FundDetails.lines := map detail_line data;
          FundDetails.total_mv :=
            FundDetails.money
              (nto_fixed
                 (nsum (map (fun it => contribution (get it "MV")) data)) 2);
          FundDetails.total_equity :=
            FundDetails.money
              (nto_fixed
                 (nsum (map (fun it => contribution (get it "Equity")) data))
                 2) |}).
Proof.
  intros Hname Hdata Hall. unfold FundDetails.render.
  replace (no_data (Some data)) with false
    by (destruct data; [now elim Hdata|reflexivity]).
  cbn [App.selected]. apply String.eqb_neq in Hname. rewrite Hname.
  cbn [orb negb elements].
  unfold FundDetails.totalMV, FundDetails.totalEquity.
  rewrite !sum_of_number_cells.
  - cbn [toFixed bind].
    rewrite (map_completion_normal FundDetails.render_line detail_line).
    + reflexivity.
    + eapply Forall_impl; [|exact Hall]. apply render_line_numeric.
  - eapply Forall_impl; [|exact Hall]. now intros it [_ He].
  - eapply Forall_impl; [|exact Hall]. now intros it [Hm _].
Qed.

End DetailProperties.

Section DetailTotals.

Context {num : Type} `{JSNumber num} `{JSNumberFormat num}.
Implicit Types (fundData : list (item num)) (field t f : string).





(** ** The dashboard *)

(** X15: a render of the component throws when a fund type reads as the
    name of a member of [Object.prototype] (the aggregation for the main
    chart fails, whatever the state), and, once the data are shown, when
    a market value cell holds non-empty text (the total is then a string,
    which has no [toFixed]). *)
Theorem dashboard_crashes (st : Dashboard.State num) :
  Exists (fun k => inherited k = true)
         (keys_of "FundType" (Dashboard.fundData st)) \/
  (Dashboard.loading st = false /\
   App.selected (Dashboard.error st) = false /\
   Exists (fun it => ~ no_text (get it "MV")) (Dashboard.fundData st)) ->
  Dashboard.render st = Throw TypeError.
Proof.
  unfold Dashboard.render. cbn [App.derive App.fundTypeData App.subFundData
                                App.totalAUM App.fundDetailsData].
  intros [Hkey|(Hload & Herr & Htext)].
  - now rewrite aggregateByField_inherited.
  - destruct (aggregateByField (Some (Dashboard.fundData st)) "FundType" "MV")
      as [rows|e]; cbn [bind]; [|now rewrite (only_TypeError e)].
    match goal with
    | |- bind ?c _ = _ => destruct c as [sub|e]; cbn [bind];
                            [|now rewrite (only_TypeError e)]
    end.
    rewrite Hload, Herr.
    destruct (text_is_a_string_total _ Htext) as [s ->]. reflexivity.
Qed.

(** X16: with nothing selected, fund types that [Object.prototype] does
    not define and no market value holding non-empty text, the component
    shows the main chart alone: the aggregated rows by fund type under
    the title that carries the total to one decimal, no segment pulled
    out, or the chart's placeholder when there is no row. *)
Theorem dashboard_overview (st : Dashboard.State num) :
  Dashboard.loading st = false ->
  App.selected (Dashboard.error st) = false ->
  Dashboard.selection st = App.initial ->
  Forall plain_key (keys_of "FundType" (Dashboard.fundData st)) ->
  Forall (fun it => no_text (get it "MV")) (Dashboard.fundData st) ->
  exists rows,
    aggregateByField (Some (Dashboard.fundData st)) "FundType" "MV" =
      Normal rows /\
    Dashboard.render st =
      Normal
        (Dashboard.DashboardScreen
           (PieChart.render (Some rows)
              (String.append "Total AUM: $"
                 (String.append
                    (nto_fixed
                       (nsum (map (amount "MV") (Dashboard.fundData st))) 1)
                    "MM"))
              None 0)
           None None) /\
    (rows = [] <-> Dashboard.fundData st = []).
Proof.
  intros Hload Herr Hsel Hplain Htext.
  exists (map (aggregate_entry "MV")
              (Object_entries (grouped "FundType" (Dashboard.fundData st) []))).
  assert (aggregateByField (Some (Dashboard.fundData st)) "FundType" "MV" =
          Normal (map (aggregate_entry "MV")
                      (Object_entries
                         (grouped "FundType" (Dashboard.fundData st) []))))
    as Hrows by now apply aggregateByField_plain.
  split; [exact Hrows|]. split.
  - unfold Dashboard.render.
    cbn [App.derive App.fundTypeData App.subFundData App.totalAUM
         App.fundDetailsData].
    rewrite Hrows, Hsel, Hload, Herr. cbn [bind App.initial App.selected
      App.selectedFundType App.selectedSubFund].
    assert (calculateTotalAUM (Some (Dashboard.fundData st)) =
            VNum (nsum (map (amount "MV") (Dashboard.fundData st)))) as ->.
    { unfold calculateTotalAUM.
      destruct (Dashboard.fundData st) as [|it data] eqn:E; [reflexivity|].
      cbn [no_data elements]. rewrite <- E in *.
      now rewrite sum_numbers. }
    reflexivity.
  - rewrite aggregated_rows. split.
    + intros Hnil. apply map_eq_nil in Hnil.
      pose proof (entries_order_perm
                    (first_occurrences
                       (keys_of "FundType" (Dashboard.fundData st)))) as Hp.
      rewrite Hnil in Hp. apply Permutation_nil in Hp.
      destruct (Dashboard.fundData st); [reflexivity|discriminate Hp].
    + intros ->. reflexivity.
Qed.

End DetailTotals.

(** ** Loading *)

Section LoadProperties.

Context {num : Type} `{JSNumber num} `{JSNumberFormat num}.
Context {buffer sheet : Type}.
Implicit Types (env : Loader.environment num buffer sheet).

(** X17: [loadExcelData] resolves with some rows exactly when the file is
    fetched with an ok status, its body is read, the parsed workbook names
    a first sheet and that sheet converts to these rows; it is rejected
    with a message exactly when one of these steps fails, the message
    being "Failed to load Excel data: " followed by the message of the
    failed step: that of the rejected fetch, body, parse or conversion,
    the HTTP status and its text, or "Excel file contains no sheets". *)
Theorem load_outcome env (filePath : string) :
  (forall data,
     Loader.loadExcelData env filePath = Loader.Resolved data <->
     exists response body book name others,
       Loader.fetch env filePath = Loader.Resolved response /\
       Loader.ok response = true /\
       Loader.arrayBuffer response = Loader.Resolved body /\
       Loader.read env body = Loader.Resolved book /\
       Loader.SheetNames book = name :: others /\ name <> "" /\
       Loader.sheet_to_json env (Loader.Sheets book name) =
         Loader.Resolved data) /\
  (forall message,
     Loader.loadExcelData env filePath = Loader.Rejected message <->
     exists cause,
       message = String.append "Failed to load Excel data: " cause /\
       (Loader.fetch env filePath = Loader.Rejected cause \/
        exists response,
          Loader.fetch env filePath = Loader.Resolved response /\
          (Loader.ok response = false /\
           cause = String.append "HTTP error "
                     (String.append (nto_string (Loader.status response))
                        (String.append ": " (Loader.statusText response))) \/
           Loader.ok response = true /\
           (Loader.arrayBuffer response = Loader.Rejected cause \/
            exists body,
              Loader.arrayBuffer response = Loader.Resolved body /\
              (Loader.read env body = Loader.Rejected cause \/
               exists book,
                 Loader.read env body = Loader.Resolved book /\
                 (hd "" (Loader.SheetNames book) = "" /\
                  cause = "Excel file contains no sheets" \/
                  hd "" (Loader.SheetNames book) <> "" /\
                  Loader.sheet_to_json env
                    (Loader.Sheets book (hd "" (Loader.SheetNames book))) =
                    Loader.Rejected cause)))))).
Proof.
  unfold Loader.loadExcelData, Loader.attempt, Loader.and_then.
  split.
  - intros data. split.
    + destruct (Loader.fetch env filePath) as [response|m]; [|discriminate].
      destruct (Loader.ok response) eqn:Hok; cbn [negb]; [|discriminate].
      destruct (Loader.arrayBuffer response) as [body|m] eqn:Hbody;
        [|discriminate].
      destruct (Loader.read env body) as [book|m] eqn:Hread; [|discriminate].
      destruct (Loader.SheetNames book) as [|name others] eqn:Hnames;
        [discriminate|].
      destruct (String.eqb_spec name "") as [->|Hname]; [discriminate|].
      destruct (Loader.sheet_to_json env (Loader.Sheets book name))
        as [rows|m] eqn:Hjson; [|discriminate].
      intros [= <-].
      exists response, body, book, name, others. repeat split; assumption.
    + intros (response & body & book & name & others & Hfetch & Hok & Hbody
              & Hread & Hnames & Hname & Hjson).
      rewrite Hfetch, Hok. cbn [negb]. rewrite Hbody, Hread, Hnames.
      apply String.eqb_neq in Hname. now rewrite Hname, Hjson.
  - intros message. split.
    + destruct (Loader.fetch env filePath) as [response|m].
      2:{ intros [= <-]. exists m. split; [reflexivity|now left]. }
      destruct (Loader.ok response) eqn:Hok; cbn [negb].
      2:{ intros [= <-]. eexists. split; [first [reflexivity|assumption]|].
          right. exists response.
          split; [first [reflexivity|assumption]|]. left. now split. }
      destruct (Loader.arrayBuffer response) as [body|m] eqn:Hbody.
      2:{ intros [= <-]. exists m. split; [first [reflexivity|assumption]|].
          right. exists response.
          split; [first [reflexivity|assumption]|]. right.
          split; [first [reflexivity|assumption]|]. now left. }
      destruct (Loader.read env body) as [book|m] eqn:Hread.
      2:{ intros [= <-]. exists m. split; [first [reflexivity|assumption]|].
          right. exists response.
          split; [first [reflexivity|assumption]|]. right.
          split; [first [reflexivity|assumption]|]. right. exists body.
          split; [first [reflexivity|assumption]|]. now left. }
      destruct (Loader.SheetNames book) as [|name others] eqn:Hnames.
      { intros [= <-]. eexists. split; [first [reflexivity|assumption]|].
        right. exists response. split; [first [reflexivity|assumption]|]. right.
        split; [first [reflexivity|assumption]|]. right. exists body.
        split; [first [reflexivity|assumption]|]. right. exists book.
        split; [exact Hread|]. left. rewrite Hnames. now split. }
      destruct (String.eqb_spec name "") as [->|Hname].
      { intros [= <-]. eexists. split; [first [reflexivity|assumption]|].
        right. exists response. split; [first [reflexivity|assumption]|]. right.
        split; [first [reflexivity|assumption]|]. right. exists body.
        split; [first [reflexivity|assumption]|]. right. exists book.
        split; [exact Hread|]. left. rewrite Hnames. now split. }
      destruct (Loader.sheet_to_json env (Loader.Sheets book name))
        as [rows|m] eqn:Hjson; [discriminate|].
      intros [= <-]. exists m. split; [first [reflexivity|assumption]|].
      right. exists response. split; [first [reflexivity|assumption]|]. right.
      split; [first [reflexivity|assumption]|]. right. exists body.
      split; [first [reflexivity|assumption]|]. right. exists book.
      split; [exact Hread|]. right. rewrite Hnames. cbn [hd]. now split.
    + intros (cause & -> & [Hfetch|(response & Hfetch & Hrest)]);
        rewrite Hfetch; [reflexivity|].
      destruct Hrest as [[Hok ->]|[Hok Hrest]]; rewrite Hok; cbn [negb];
        [reflexivity|].
      destruct Hrest as [Hbody|(body & Hbody & Hrest)]; rewrite Hbody;
        [reflexivity|].
      destruct Hrest as [Hread|(book & Hread & Hrest)]; rewrite Hread;
        [reflexivity|].
      destruct (Loader.SheetNames book) as [|name others]; cbn [hd] in Hrest.
      * destruct Hrest as [[_ ->]|[Hname _]]; [reflexivity|now elim Hname].
      * destruct Hrest as [[-> ->]|[Hname Hjson]]; [reflexivity|].
        apply String.eqb_neq in Hname. now rewrite Hname, Hjson.
Qed.

(** X18: when the effect that runs on mount has finished, the component
    is no longer loading and nothing is selected; after a failed load it
    has no rows and shows the error screen with the message
    "Failed to load data: " followed by the message of the failure; after
    a load that gave no rows it shows the dashboard with the placeholder
    of the chart ("Loading data...") and nothing else. *)
Theorem mount_outcome env :
  Dashboard.loading (Dashboard.fetchData env Dashboard.initial) = false /\
  Dashboard.selection (Dashboard.fetchData env Dashboard.initial) =
    App.initial /\
  match Loader.loadExcelData env "/data/DummyDataSet.xlsx" with
  | Loader.Rejected message =>
      Dashboard.fundData (Dashboard.fetchData env Dashboard.initial) = [] /\
      Dashboard.render (Dashboard.fetchData env Dashboard.initial) =
        Normal (Dashboard.ErrorScreen
                  (String.append "Failed to load data: " message))
  | Loader.Resolved data =>
      Dashboard.fundData (Dashboard.fetchData env Dashboard.initial) = data /\
      Dashboard.error (Dashboard.fetchData env Dashboard.initial) = None /\
      match data with
      | [] =>
          Dashboard.render (Dashboard.fetchData env Dashboard.initial) =
            Normal (Dashboard.DashboardScreen PieChart.LoadingData None None)
      | _ :: _ => True
      end
  end.
Proof.
  unfold Dashboard.fetchData.
  destruct (Loader.loadExcelData env "/data/DummyDataSet.xlsx")
    as [[|it data]|message]; repeat split.
Qed.

End LoadProperties.

(** ** The properties on the sample data *)

Ltac sample_rows :=
  repeat (apply Forall_cons;
          [first [reflexivity | eexists; reflexivity | split; exact I
                 | simpl; auto]|]);
  try apply Forall_nil.


Lemma sub_fund_total_matches_witness :
  exists main sub row,
    App.fundTypeData
      (App.derive double_records (App.selectFundType "Equity" App.initial)) =
      Normal main /\
    App.subFundData
      (App.derive double_records (App.selectFundType "Equity" App.initial)) =
      Normal sub /\
    In row main /\ row_key row = "Equity" /\
    App.rows_total sub = row_sum row.
Proof.
  apply (sub_fund_total_matches units double_records
           (App.selectFundType "Equity" App.initial) "Equity").
  - reflexivity.
  - discriminate.
  - simpl. auto.
  - repeat (apply Forall_cons; [eexists; reflexivity|]). apply Forall_nil.
  - repeat constructor.
  - repeat constructor.
  - repeat constructor.
  - repeat (apply Forall_cons; [vm_compute; reflexivity|]). apply Forall_nil.
  - vm_compute. reflexivity.
Defined.

Lemma details_need_numbers_witness :
  FundDetails.render (Some missing_amount) (Some "A") = Throw TypeError.
Proof.
  apply (details_need_numbers missing_amount (Some "A")); [reflexivity|].
  apply Exists_cons_tl, Exists_cons_hd. simpl. intros [Hmv _]. exact Hmv.
Defined.

Lemma details_table_witness :
  FundDetails.render (Some sample_records) (Some "A") =
  Normal
    (Some
       {| FundDetails.title :=
            String.append "Fund "
              (String.append "A"
                 (String.append " ($"
                    (String.append
                       (nto_fixed
                          (nsum (map (fun it => contribution (get it "MV"))
                                     sample_records)) 1)
                       "MM NAV)")));
          FundDetails.lines := map detail_line sample_records;
          FundDetails.total_mv :=
            FundDetails.money
              (nto_fixed
                 (nsum (map (fun it => contribution (get it "MV"))
                            sample_records)) 2);
          FundDetails.total_equity :=
            FundDetails.money
              (nto_fixed
                 (nsum (map (fun it => contribution (get it "Equity"))
                            sample_records)) 2) |}).
Proof.
  apply (details_table sample_records "A");
    try discriminate; sample_rows.
Defined.


Lemma dashboard_crashes_witness :
  Dashboard.render
    {| Dashboard.fundData := text_cell; Dashboard.loading := false;
       Dashboard.error := None; Dashboard.selection := App.initial |} =
  Throw TypeError.
Proof.
  apply (dashboard_crashes
           {| Dashboard.fundData := text_cell; Dashboard.loading := false;
              Dashboard.error := None; Dashboard.selection := App.initial |}).
  right. split; [reflexivity|]. split; [reflexivity|].
  apply Exists_cons_tl, Exists_cons_hd. simpl. discriminate.
Defined.

Lemma dashboard_overview_witness :
  exists rows,
    aggregateByField
      (Some (Dashboard.fundData
               {| Dashboard.fundData := sample_records;
                  Dashboard.loading := false; Dashboard.error := None;
                  Dashboard.selection := App.initial |}))
      "FundType" "MV" = Normal rows /\
    Dashboard.render
      {| Dashboard.fundData := sample_records; Dashboard.loading := false;
         Dashboard.error := None; Dashboard.selection := App.initial |} =
      Normal
        (Dashboard.DashboardScreen
           (PieChart.render (Some rows)
              (String.append "Total AUM: $"
                 (String.append
                    (nto_fixed
                       (nsum (map (amount "MV")
                                  (Dashboard.fundData
                                     {| Dashboard.fundData := sample_records;
                                        Dashboard.loading := false;
                                        Dashboard.error := None;
                                        Dashboard.selection := App.initial |})))
                       1)
                    "MM"))
              None 0)
           None None) /\
    (rows = [] <->
     Dashboard.fundData
       {| Dashboard.fundData := sample_records; Dashboard.loading := false;
          Dashboard.error := None; Dashboard.selection := App.initial |} = []).
Proof.
  apply (dashboard_overview
           {| Dashboard.fundData := sample_records; Dashboard.loading := false;
              Dashboard.error := None; Dashboard.selection := App.initial |});
    try reflexivity; sample_rows.
Defined.

(** The renders of the example scenario. *)
Example scenario_render :
  Dashboard.render
    {| Dashboard.fundData := sample_records; Dashboard.loading := false;
       Dashboard.error := None;
       Dashboard.selection :=
         App.selectSubFund "A" (App.selectFundType "Equity" App.initial) |} =
  Normal
    (Dashboard.DashboardScreen
       (PieChart.Chart (Some "Total AUM: $35.0MM")
          {| PieChart.chart_labels := ["Equity"; "Fixed Income"];
             PieChart.chart_values :=
               [VNum (Exact.Int 15); VNum (Exact.Int 20)];
             PieChart.backgroundColor := [Some "#3b82f6"; Some "#10b981"];
             PieChart.chart_offset := [20; 0] |})
       (Some
          (PieChart.Chart (Some "$15.0MM Equity NAV")
             {| PieChart.chart_labels := ["A"; "B"];
                PieChart.chart_values :=
                  [VNum (Exact.Int 10); VNum (Exact.Int 5)];
                PieChart.backgroundColor := [Some "#f97316"; Some "#ef4444"];
                PieChart.chart_offset := [20; 0] |}))
       (Some
          (Some
             {| FundDetails.title := "Fund A ($10.0MM NAV)";
                FundDetails.lines :=
                  [ {| FundDetails.asset := VStr "Stock1";
                       FundDetails.mv := "$10.00MM";
                       FundDetails.equity := "$8.00MM" |} ];
                FundDetails.total_mv := "$10.00MM";
                FundDetails.total_equity := "$8.00MM" |}))).
Proof. vm_compute. reflexivity. Qed.

Example toFixed_examples :
  map (fun p => Fixed.binary64 (fst p) (snd p))
      [ (35%float, 1); (0x1.6666666666667p-1%float, 1);
        (0x1.7333333333333p+0%float, 1); (0x1.0b0a3d70a3d71p+3%float, 2);
        (0x1.4p+1%float, 0); ((-0x1.8p+0)%float, 0);
        (0x1.0147ae147ae14p+0%float, 2); ((-0)%float, 2);
        (0x1.b1ae4d6e2ef5p+69%float, 2) ] =
  [ "35.0"; "0.7"; "1.4"; "8.35"; "3"; "-2"; "1.00"; "0.00"; "1e+21" ].
Proof. vm_compute. reflexivity. Qed.

(** ** Clicks on the rendered charts *)

Section Clicks.

Context {num : Type} `{JSNumber num} `{JSNumberFormat num}.

Lemma rendered_labels (rows : list (AggregateRow num)) (title : string)
    (selectedItem : option string) (colorOffset : nat)
    (shown : option string) (d : PieChart.chartData num) :
  PieChart.render (Some rows) title selectedItem colorOffset =
    PieChart.Chart shown d ->
  PieChart.chart_labels d = PieChart.labels rows.
Proof.
  unfold PieChart.render. destruct (no_data (Some rows)); [discriminate|].
  intros [= _ <-]. reflexivity.
Qed.

Lemma labels_are_keys (data : list (item num)) (groupField valueField : string)
    (rows : list (AggregateRow num)) (k : string) :
  aggregateByField (Some data) groupField valueField = Normal rows ->
  In k (PieChart.labels rows) -> In k (keys_of groupField data).
Proof.
  intros Hagg Hk.
  destruct (plain_or_inherited (keys_of groupField data)) as [Hplain|Hinh].
  - rewrite aggregateByField_plain in Hagg by exact Hplain.
    injection Hagg as <-. unfold PieChart.labels in Hk.
    rewrite aggregate_entry_key, Object_entries_keys, grouped_keys in Hk.
    apply (Permutation_in _ (entries_order_perm _)) in Hk.
    now apply (proj1 (first_occurrences_In _ _)) in Hk.
  - rewrite (aggregateByField_inherited _ _ valueField Hinh) in Hagg.
    discriminate Hagg.
Qed.

Lemma main_chart_labels (st : Dashboard.State num) (title : option string)
    (d : PieChart.chartData num) (sub : option (PieChart.rendered num))
    (details : option (option (FundDetails.table num))) (x : string) :
  Dashboard.render st =
    Normal (Dashboard.DashboardScreen (PieChart.Chart title d) sub details) ->
  In x (PieChart.chart_labels d) ->
  In x (keys_of "FundType" (Dashboard.fundData st)).
Proof.
  unfold Dashboard.render.
  cbn [App.derive App.fundTypeData App.subFundData App.totalAUM
       App.fundDetailsData].
  destruct (aggregateByField (Some (Dashboard.fundData st)) "FundType" "MV")
    as [rows|e] eqn:Hrows; cbn [bind]; [|discriminate].
  match goal with
  | |- bind ?c _ = _ -> _ => destruct c as [subrows|e]; cbn [bind];
                               [|discriminate]
  end.
  destruct (Dashboard.loading st); [discriminate|].
  destruct (App.selected (Dashboard.error st)); [discriminate|].
  repeat match goal with
         | |- bind ?c _ = _ -> _ => destruct c; cbn [bind]; [|discriminate]
         end.
  intros [= Hmain _ _] Hx.
  apply rendered_labels in Hmain. rewrite Hmain in Hx.
  now apply (labels_are_keys _ _ _ _ _ Hrows).
Qed.

Lemma sub_chart_labels (st : Dashboard.State num)
    (main : PieChart.rendered num) (title : option string)
    (d : PieChart.chartData num)
    (details : option (option (FundDetails.table num))) (y : string) :
  Dashboard.render st =
    Normal (Dashboard.DashboardScreen main (Some (PieChart.Chart title d))
              details) ->
  In y (PieChart.chart_labels d) ->
  exists t,
    App.selectedFundType (Dashboard.selection st) = Some t /\
    In y (keys_of "Fund"
            (filter (App.matches "FundType" (Some t))
                    (Dashboard.fundData st))).
Proof.
  unfold Dashboard.render.
  cbn [App.derive App.fundTypeData App.subFundData App.totalAUM
       App.fundDetailsData].
  destruct (aggregateByField (Some (Dashboard.fundData st)) "FundType" "MV")
    as [rows|e]; cbn [bind]; [|discriminate].
  destruct (App.selectedFundType (Dashboard.selection st)) as [t|] eqn:Ht.
  - destruct (App.selected (Some t)).
    + destruct (aggregateByField
                  (Some (filter (App.matches "FundType" (Some t))
                                (Dashboard.fundData st))) "Fund" "MV")
        as [subrows|e] eqn:Hsub; cbn [bind]; [|discriminate].
      destruct (Dashboard.loading st); [discriminate|].
      destruct (App.selected (Dashboard.error st)); [discriminate|].
      repeat match goal with
             | |- bind (bind ?c _) _ = _ -> _ =>
                 destruct c; cbn [bind]; [|discriminate]
             | |- bind ?c _ = _ -> _ => destruct c; cbn [bind]; [|discriminate]
             end.
      intros [= _ Hchart _] Hy.
      apply rendered_labels in Hchart. rewrite Hchart in Hy.
      exists t. split; [reflexivity|].
      now apply (labels_are_keys _ _ _ _ _ Hsub).
    + cbn [bind].
      destruct (Dashboard.loading st); [discriminate|].
      destruct (App.selected (Dashboard.error st)); [discriminate|].
      repeat match goal with
             | |- bind ?c _ = _ -> _ => destruct c; cbn [bind]; [|discriminate]
             end.
      discriminate.
  - cbn [App.selected bind].
    destruct (Dashboard.loading st); [discriminate|].
    destruct (App.selected (Dashboard.error st)); [discriminate|].
    repeat match goal with
           | |- bind ?c _ = _ -> _ => destruct c; cbn [bind]; [|discriminate]
           end.
    discriminate.
Qed.

Lemma clicks_name_rows (start st : Dashboard.State num) :
  Dashboard.selection start = App.initial ->
  Dashboard.reachable start st ->
  Dashboard.fundData st = Dashboard.fundData start /\
  names_rows (Dashboard.fundData st) (Dashboard.selection st).
Proof.
  intros Hstart Hreach.
  induction Hreach as [|st st' _ [Hdata [Htype Hfund]] Hclick].
  - split; [reflexivity|]. rewrite Hstart. split; intros z; discriminate.
  - destruct Hclick as [st x title d sub details Hrender Hx
                       |st y main title d details Hrender Hy].
    + split; [exact Hdata|].
      apply (main_chart_labels _ _ _ _ _ _ Hrender) in Hx.
      unfold Dashboard.clickFundType, App.selectFundType, handleClick.
      cbn [Dashboard.fundData Dashboard.selection].
      destruct (same_item x (App.selectedFundType (Dashboard.selection st)));
        cbn [App.handleFundTypeSelect]; split;
        cbn [App.selectedFundType App.selectedSubFund]; intros z;
        try discriminate.
      now intros [= <-].
    + split; [exact Hdata|].
      destruct (sub_chart_labels _ _ _ _ _ _ Hrender Hy) as (t & Ht & Hin).
      unfold Dashboard.clickSubFund, App.selectSubFund, handleClick.
      cbn [Dashboard.fundData Dashboard.selection].
      destruct (same_item y (App.selectedSubFund (Dashboard.selection st)));
        cbn [App.handleSubFundSelect]; split;
        cbn [App.selectedFundType App.selectedSubFund]; try exact Htype;
        intros z; try discriminate.
      intros [= <-]. now exists t.
Qed.

(** X7: in every state reached from one with nothing selected by clicks
    on segments of the rendered charts, the rows are those of the start,
    a selected fund type is the key of a row, and a fund is selected only
    together with a fund type, of whose rows it is a key: the charts
    offer no other label. *)
Theorem selection_names_rows (start st : Dashboard.State num) :
  Dashboard.selection start = App.initial ->
  Dashboard.reachable start st ->
  Dashboard.fundData st = Dashboard.fundData start /\
  names_rows (Dashboard.fundData st) (Dashboard.selection st).
Proof. apply clicks_name_rows. Qed.

End Clicks.

(** The dashboard of the example scenario, loaded and with nothing
    selected. *)
Lemma scenario_clicks :
  let start := {| Dashboard.fundData := sample_records;
                  Dashboard.loading := false; Dashboard.error := None;
                  Dashboard.selection := App.initial |} in
  Dashboard.reachable start
    (Dashboard.clickSubFund "A" (Dashboard.clickFundType "Equity" start)).
Proof.
  intros start.
  apply Dashboard.reachable_click
    with (st := Dashboard.clickFundType "Equity" start).
  - apply Dashboard.reachable_click with (st := start);
      [apply Dashboard.reachable_start|].
    eapply Dashboard.click_main with (x := "Equity");
      [vm_compute; reflexivity|simpl; auto].
  - eapply Dashboard.click_sub with (y := "A");
      [vm_compute; reflexivity|simpl; auto].
Qed.

Lemma selection_names_rows_witness :
  let start := {| Dashboard.fundData := sample_records;
                  Dashboard.loading := false; Dashboard.error := None;
                  Dashboard.selection := App.initial |} in
  let st := Dashboard.clickSubFund "A"
              (Dashboard.clickFundType "Equity" start) in
  Dashboard.fundData st = Dashboard.fundData start /\
  names_rows (Dashboard.fundData st) (Dashboard.selection st).
Proof.
  intros start st.
  apply (selection_names_rows start st);
    [reflexivity|apply scenario_clicks].
Defined.

(** No click leads to the fund A under the fund type Fixed Income: the
    sub-fund chart of Fixed Income has no segment A. *)
Example unrelated_fund_unreachable :
  ~ Dashboard.reachable
      {| Dashboard.fundData := sample_records; Dashboard.loading := false;
         Dashboard.error := None; Dashboard.selection := App.initial |}
      {| Dashboard.fundData := sample_records; Dashboard.loading := false;
         Dashboard.error := None;
         Dashboard.selection :=
           {| App.selectedFundType := Some "Fixed Income";
              App.selectedSubFund := Some "A" |} |}.
Proof.
  intros Hreach.
  apply clicks_name_rows in Hreach as [_ [_ Hfund]]; [|reflexivity].
  destruct (Hfund "A" eq_refl) as (t & [= <-] & Hin).
  vm_compute in Hin. intuition discriminate.
Qed.

(** ** A click on the main chart *)

(** X19: whenever the dashboard is shown after a click on a segment of
    the main chart, the detail table is gone, and the sub-fund chart is
    there exactly when the click selected a segment (one that was not the
    selected one) whose label is not empty. *)
Theorem click_clears_details {num : Type} `{JSNumber num}
    `{JSNumberFormat num} (st : Dashboard.State num) (x : string)
    (main : PieChart.rendered num) (sub : option (PieChart.rendered num))
    (details : option (option (FundDetails.table num))) :
  Dashboard.render (Dashboard.clickFundType x st) =
    Normal (Dashboard.DashboardScreen main sub details) ->
  details = None /\
  (sub = None <->
   same_item x (App.selectedFundType (Dashboard.selection st)) = true \/
   x = "").
Proof.
  unfold Dashboard.render, Dashboard.clickFundType.
  cbn [Dashboard.selection Dashboard.fundData Dashboard.loading
       Dashboard.error App.derive App.fundTypeData App.subFundData
       App.totalAUM App.fundDetailsData].
  unfold App.selectFundType, handleClick.
  destruct (same_item x (App.selectedFundType (Dashboard.selection st)));
    cbn [App.handleFundTypeSelect App.selectedFundType App.selectedSubFund
         App.selected].
  - destruct (aggregateByField (Some (Dashboard.fundData st)) "FundType" "MV");
      cbn [bind]; [|discriminate].
    destruct (Dashboard.loading st); [discriminate|].
    destruct (App.selected (Dashboard.error st)); [discriminate|].
    destruct (toFixed (calculateTotalAUM (Some (Dashboard.fundData st))) 1);
      cbn [bind]; [|discriminate].
    intros [= _ <- <-]. split; [reflexivity|]. split; auto.
  - destruct (aggregateByField (Some (Dashboard.fundData st)) "FundType" "MV");
      cbn [bind]; [|discriminate].
    destruct (String.eqb_spec x "") as [->|Hx]; cbn [negb].
    + cbn [bind].
      destruct (Dashboard.loading st); [discriminate|].
      destruct (App.selected (Dashboard.error st)); [discriminate|].
      destruct (toFixed (calculateTotalAUM (Some (Dashboard.fundData st))) 1);
        cbn [bind]; [|discriminate].
      intros [= _ <- <-]. split; [reflexivity|]. split; auto.
    + match goal with
      | |- bind ?c _ = _ -> _ => destruct c as [rows|e]; cbn [bind];
                                   [|discriminate]
      end.
      destruct (Dashboard.loading st); [discriminate|].
      destruct (App.selected (Dashboard.error st)); [discriminate|].
      destruct (toFixed (calculateTotalAUM (Some (Dashboard.fundData st))) 1);
        cbn [bind]; [|discriminate].
      destruct (toFixed (App.rows_total rows) 1); cbn [bind]; [|discriminate].
      intros [= _ <- <-]. split; [reflexivity|].
      split; [discriminate|]. intros [Hs|Hs]; [discriminate|contradiction].
Qed.

Lemma click_clears_details_witness :
  @None (option (FundDetails.table Exact.t)) = None /\
  (Some
     (PieChart.render
        (Some [ {| row_key := "A"; row_sum := VNum (Exact.Int 10);
                   row_count := 1 |};
                {| row_key := "B"; row_sum := VNum (Exact.Int 5);
                   row_count := 1 |} ])
        "$15.0MM Equity NAV" None 3) = None <->
   same_item "Equity"
     (App.selectedFundType
        (Dashboard.selection
           {| Dashboard.fundData := sample_records;
              Dashboard.loading := false; Dashboard.error := None;
              Dashboard.selection :=
                App.selectSubFund "C"
                  (App.selectFundType "Fixed Income" App.initial) |})) = true \/
   "Equity" = "").
Proof.
  apply (click_clears_details
           {| Dashboard.fundData := sample_records;
              Dashboard.loading := false; Dashboard.error := None;
              Dashboard.selection :=
                App.selectSubFund "C"
                  (App.selectFundType "Fixed Income" App.initial) |}
           "Equity"
           (PieChart.render
              (Some [ {| row_key := "Equity"; row_sum := VNum (Exact.Int 15);
                         row_count := 2 |};
                      {| row_key := "Fixed Income";
                         row_sum := VNum (Exact.Int 20); row_count := 1 |} ])
              "Total AUM: $35.0MM" (Some "Equity") 0)).
  vm_compute. reflexivity.
Defined.
